(** * Verification of the pass-through / merge-assign runnables

    Shallow embedding of
    - [libs/langchain/langchain/schema/runnable/passthrough.py]
      ([identity], [RunnablePassthrough], [RunnableAssign]),
    - [langchain/evaluation/run_evaluators/string_run_evaluator.py]
      ([ChainStringRunMapper.map]),
    - [langchain/evaluation/comparison/embedding.py]
      ([PairwiseEmbeddingStringEvalChain]).

    Python dictionaries are finite maps with string keys ([gmap string _]):
    equality of maps is equality of their lookups, which is Python's [==]
    on dicts.  Exceptions are an explicit error type, generators are the
    finite sequence of values they yield together with the way they end. *)

From stdpp Require Import gmap strings list fin_maps.
From Stdlib Require Import ZArith.

#[local] Set Warnings "-register-all".
#[local] Open Scope Z_scope.
#[local] Open Scope string_scope.
#[local] Open Scope list_scope.

(** ** Python values and exceptions *)

(** The objects that flow through the runnables: [None], integers, strings
    and dictionaries from string keys to objects. *)
Inductive pyobj : Type :=
  | PNone
  | PInt (z : Z)
  | PStr (s : string)
  | PDict (d : gmap string pyobj).

(** The exception classes the modelled code raises. *)
Inductive exn : Type :=
  | AssertionError (msg : string)
  | ValueError (msg : string)
  | TypeError (msg : string)
  | KeyError (key : string).

(** Outcome of a call: a returned value or a raised exception. *)
Inductive result (A : Type) : Type :=
  | Ok (a : A)
  | Raise (e : exn).
Arguments Ok {A} a.
Arguments Raise {A} e.

#[global] Instance result_ret : MRet result := λ A a, Ok a.
#[global] Instance result_fmap : FMap result := λ A B f r,
  match r with
  | Ok a => Ok (f a)
  | Raise e => Raise e
  end.
#[global] Instance result_bind : MBind result := λ A B f r,
  match r with
  | Ok a => f a
  | Raise e => Raise e
  end.

(** [isinstance(x, dict)] *)
Definition isinstance_dict (x : pyobj) : bool :=
  match x with
  | PDict _ => true
  | _ => false
  end.

(** [acc.update(other)], which is also what unpacking [**other] into a dict
    display does: the keys of [other] are written over those of [acc]. *)
Definition dict_update (acc other : gmap string pyobj) : gmap string pyobj :=
  other ∪ acc.

(** The dict display [{**a, **b}]: a new dict, filled from [a], then from
    [b].  [b] must be a mapping. *)
Definition dict_display2 (a : gmap string pyobj) (b : pyobj) : result pyobj :=
  match b with
  | PDict m => Ok (PDict (dict_update (dict_update ∅ a) m))
  | _ => Raise (TypeError "object is not a mapping")
  end.

(** [RunnableConfig] is a dictionary of options; the engine threads it
    through unchanged.  [None] is the absent configuration. *)
Abbreviation RunnableConfig := (option (gmap string pyobj)) (only parsing).

(** ** Generators

    A generator that is driven to its end yields a finite sequence of
    chunks and then either stops or raises. *)
Record Stream : Type := MkStream {
  chunks : list pyobj;
  failure : option exn
}.

Definition stream_stop : Stream := MkStream [] None.
Definition stream_raise (e : exn) : Stream := MkStream [] (Some e).
Definition stream_yield (x : pyobj) (k : Stream) : Stream :=
  MkStream (x :: chunks k) (failure k).
Definition stream_of_list (l : list pyobj) : Stream := MkStream l None.

(** Sequencing of two generator bodies: the second runs only when the first
    ends without raising. *)
Definition stream_seq (s1 s2 : Stream) : Stream :=
  match failure s1 with
  | Some e => s1
  | None => MkStream (chunks s1 ++ chunks s2) (failure s2)
  end.

(** [next(it, default)]: the first chunk and the rest of the generator, the
    default when the generator is exhausted, the exception when it raises
    before yielding. *)
Definition py_next (it : Stream) (default : pyobj) : result pyobj * Stream :=
  match chunks it, failure it with
  | c :: cs, f => (Ok c, MkStream cs f)
  | [], None => (Ok default, stream_stop)
  | [], Some e => (Raise e, stream_stop)
  end.

(** Modelled from the spec: [safetee] of [langchain.utils.iter] is not among
    the sources.  Spec 4.1: each of the [n] returned sequences sees the same
    items in the same order as the source, whatever the pace of the others. *)
Definition safetee (input : list pyobj) (n : nat) : list (list pyobj) :=
  replicate n input.

(** Modelled from the spec: [AddableDict.__add__] of
    [langchain.schema.runnable.utils] is not among the sources.  Spec 4.2:
    each chunk is merged onto the accumulator dict, duplicate keys of a later
    chunk overwrite earlier ones.  Only dictionaries can be merged. *)
Definition add_chunk (acc chunk : pyobj) : result pyobj :=
  match acc, chunk with
  | PDict a, PDict c => Ok (PDict (dict_update a c))
  | _, _ => Raise (TypeError "unsupported operand type(s) for +")
  end.

(** Modelled from the spec: the default accumulation of a stream (spec 4.2),
    [final = chunk] for the first chunk and [final = final + chunk] after. *)
Fixpoint add_chunks (acc : pyobj) (l : list pyobj) : result pyobj :=
  match l with
  | [] => Ok acc
  | c :: l' => acc' ← add_chunk acc c; add_chunks acc' l'
  end.

Definition concat_chunks (l : list pyobj) : option (result pyobj) :=
  match l with
  | [] => None
  | c :: l' => Some (add_chunks c l')
  end.

(** Fully consuming a stream and concatenating its chunks.  A stream that
    raises propagates its exception; a stream without chunks has no value. *)
Definition consume (s : Stream) : option (result pyobj) :=
  match failure s with
  | Some e => Some (Raise e)
  | None => concat_chunks (chunks s)
  end.

(** ** The unit-of-work interface *)

(** Modelled from the spec: the [Runnable] base class of
    [langchain.schema.runnable.base] is not among the sources.  A unit of
    work offers the single-shot and the streaming mode (spec 4.2); the
    asynchronous modes have the same results. *)
Record Runnable : Type := MkRunnable {
  r_invoke : pyobj → RunnableConfig → result pyobj;
  r_transform : list pyobj → RunnableConfig → Stream
}.

(** Modelled from the spec: a bare function wrapped as a unit (spec 9).  It
    defines only [invoke], so it streams by computing the whole result and
    yielding it as the sole chunk (spec 4.2); over several input chunks it
    first accumulates them (spec 8, the three-chunk example). *)
Definition RunnableLambda (f : pyobj → result pyobj) : Runnable :=
  MkRunnable
    (λ x _, f x)
    (λ input _,
       match concat_chunks input with
       | None => stream_stop
       | Some (Raise e) => stream_raise e
       | Some (Ok x) =>
           match f x with
           | Ok y => stream_yield y stream_stop
           | Raise e => stream_raise e
           end
       end).

(** Modelled from the spec: [_call_with_config] of the base class is not
    among the sources.  The configuration is an opaque bag threaded through
    unchanged (spec 3), so the wrapped function is applied to the input and
    its result handed back. *)
Definition _call_with_config {I O : Type}
    (func : I → O) (input : I) (config : RunnableConfig) : O :=
  func input.

(** Modelled from the spec: [_transform_stream_with_config] of the base
    class is not among the sources.  The transformer maps the iterator of
    input chunks to the iterator of output chunks, which is handed back with
    the configuration untouched (spec 3). *)
Definition _transform_stream_with_config
    (input : list pyobj) (transformer : list pyobj → list pyobj)
    (config : RunnableConfig) : Stream :=
  stream_of_list (transformer input).

(** ** [passthrough.py] *)

(** [def identity(x): return x] *)
Definition identity {Input : Type} (x : Input) : Input := x.

(** [async def aidentity(x): return x] *)
Definition aidentity {Input : Type} (x : Input) : Input := x.

Module RunnableParallel.

(** What [RunnableAssign] uses of its [mapper]: the keys of [steps], and
    the two execution modes. *)
Record t : Type := Mk {
  steps_keys : gset string;
  invoke : pyobj → RunnableConfig → result pyobj;
  transform : list pyobj → RunnableConfig → Stream
}.

(** Modelled from the spec: spec 4.4, single-shot mode.  The named
    sub-tasks run over the same input and their results are collected;
    the first failure fails the whole. *)
Fixpoint invoke_steps (steps : list (string * Runnable)) (input : pyobj)
    (config : RunnableConfig) : result (gmap string pyobj) :=
  match steps with
  | [] => Ok ∅
  | (name, task) :: rest =>
      v ← r_invoke task input config;
      out ← invoke_steps rest input config;
      Ok (<[name := v]> out)
  end.

(** Modelled from the spec: spec 4.4, streaming mode.  Every chunk of a
    sub-task is wrapped as the one-key record [{name: chunk}]. *)
Definition wrap_chunks (name : string) (s : Stream) : Stream :=
  MkStream ((λ c, PDict {[ name := c ]}) <$> chunks s) (failure s).

(** Modelled from the spec: spec 4.4, streaming mode, with the sub-tasks
    scheduled one after the other. *)
Fixpoint transform_steps (steps : list (string * Runnable))
    (input : list pyobj) (config : RunnableConfig) : Stream :=
  match steps with
  | [] => stream_stop
  | (name, task) :: rest =>
      stream_seq (wrap_chunks name (r_transform task input config))
                 (transform_steps rest input config)
  end.

(** Modelled from the spec: the class [RunnableParallel] of
    [langchain.schema.runnable.base] is not among the sources.  Spec 4.4:
    the output record has the sub-task names as keys and each sub-task's
    result as value, and fails as a whole when a sub-task fails; in the
    streaming variant every chunk of a sub-task is emitted as
    [{task_name: chunk}], the order within one sub-task being preserved.
    The order across sub-tasks is left open by the spec; this constructor
    fixes the schedule that runs the sub-tasks in key order.  The
    statements about [RunnableAssign] below hold for every [t], hence for
    every other schedule as well. *)
Definition of_steps (steps : gmap string Runnable) : t :=
  Mk (dom steps)
     (λ input config,
        PDict <$> invoke_steps (map_to_list steps) input config)
     (transform_steps (map_to_list steps)).

End RunnableParallel.

Module RunnablePassthrough.

(** [invoke]: [return self._call_with_config(identity, input, config)] *)
Definition invoke (input : pyobj) (config : RunnableConfig) : result pyobj :=
  Ok (_call_with_config identity input config).

(** [ainvoke]: [return await self._acall_with_config(aidentity, input, config)] *)
Definition ainvoke (input : pyobj) (config : RunnableConfig) : result pyobj :=
  Ok (_call_with_config aidentity input config).

(** [transform]:
    [return self._transform_stream_with_config(input, identity, config)] *)
Definition transform (input : list pyobj) (config : RunnableConfig) : Stream :=
  _transform_stream_with_config input identity config.

(** [atransform]: re-yields every chunk of
    [self._atransform_stream_with_config(input, identity, config)]. *)
Definition atransform (input : list pyobj) (config : RunnableConfig) : Stream :=
  stream_seq (_transform_stream_with_config input identity config) stream_stop.

(** The inherited [stream]: the one input as a one-element sequence. *)
Definition stream (input : pyobj) (config : RunnableConfig) : Stream :=
  transform [input] config.

End RunnablePassthrough.

Module RunnableAssign.

Record t : Type := Mk { mapper : RunnableParallel.t }.

Definition must_be_dict : exn :=
  AssertionError "The input to RunnablePassthrough.assign() must be a dict.".

(** [invoke]: the assertion on the input, then the dict display
    [{**input, **self.mapper.invoke(input, config, **kwargs)}]. *)
Definition invoke (self : t) (input : pyobj) (config : RunnableConfig)
    : result pyobj :=
  match input with
  | PDict d =>
      m ← RunnableParallel.invoke (mapper self) input config;
      dict_display2 d m
  | _ => Raise must_be_dict
  end.

(** [ainvoke]: as [invoke], awaiting [self.mapper.ainvoke]; the mapper's
    asynchronous mode has the result of its synchronous one. *)
Definition ainvoke (self : t) (input : pyobj) (config : RunnableConfig)
    : result pyobj :=
  match input with
  | PDict d =>
      m ← RunnableParallel.invoke (mapper self) input config;
      dict_display2 d m
  | _ => Raise must_be_dict
  end.

(** [{k: v for k, v in chunk.items() if k not in mapper_keys}] *)
Definition filter_chunk (mapper_keys : gset string)
    (chunk : gmap string pyobj) : gmap string pyobj :=
  filter (λ kv, kv.1 ∉ mapper_keys) chunk.

(** The loop [for chunk in for_passthrough] of [transform]: assert that
    the chunk is a dict, drop the mapper's keys, yield what is left unless
    it is empty. *)
Fixpoint drain_passthrough (mapper_keys : gset string)
    (for_passthrough : list pyobj) : Stream :=
  match for_passthrough with
  | [] => stream_stop
  | PDict chunk :: rest =>
      let filtered := filter_chunk mapper_keys chunk in
      if decide (filtered = ∅)
      then drain_passthrough mapper_keys rest
      else stream_yield (PDict filtered) (drain_passthrough mapper_keys rest)
  | _ :: _ => stream_raise must_be_dict
  end.

(** The tail of [transform] after the passthrough loop:
    [yield first_map_chunk_future.result()], then
    [for chunk in map_output: yield chunk]. *)
Definition yield_map_output (first_map_chunk : result pyobj * Stream) : Stream :=
  match first_map_chunk with
  | (Ok c, map_output) => stream_yield c map_output
  | (Raise e, _) => stream_raise e
  end.

(** [transform], as the sequence it yields when driven to its end.  The
    first chunk of the map output is fetched by [next(map_output, None)] on
    the executor; its result is used only after the passthrough loop. *)
Definition transform (self : t) (input : list pyobj) (config : RunnableConfig)
    : Stream :=
  let mapper_keys := RunnableParallel.steps_keys (mapper self) in
  match safetee input 2 with
  | [for_passthrough; for_map] =>
      let map_output := RunnableParallel.transform (mapper self) for_map config in
      let first_map_chunk_future := py_next map_output PNone in
      stream_seq (drain_passthrough mapper_keys for_passthrough)
                 (yield_map_output first_map_chunk_future)
  | _ => stream_raise (ValueError "not enough values to unpack")
  end.

(** [atransform]: the same steps with [atee], [asyncio.create_task] and
    [py_anext(map_output, None)]; the mapper's asynchronous stream has the
    chunks of its synchronous one. *)
Definition atransform (self : t) (input : list pyobj) (config : RunnableConfig)
    : Stream :=
  let mapper_keys := RunnableParallel.steps_keys (mapper self) in
  match safetee input 2 with
  | [for_passthrough; for_map] =>
      let map_output := RunnableParallel.transform (mapper self) for_map config in
      let first_map_chunk_task := py_next map_output PNone in
      stream_seq (drain_passthrough mapper_keys for_passthrough)
                 (yield_map_output first_map_chunk_task)
  | _ => stream_raise (ValueError "not enough values to unpack")
  end.

(** [stream]: [return self.transform(iter([input]), config, **kwargs)] *)
Definition stream (self : t) (input : pyobj) (config : RunnableConfig) : Stream :=
  transform self [input] config.

(** [astream]: re-yields [self.atransform(input_aiter(), config, **kwargs)]
    where [input_aiter] yields the one input. *)
Definition astream (self : t) (input : pyobj) (config : RunnableConfig) : Stream :=
  stream_seq (atransform self [input] config) stream_stop.

End RunnableAssign.

(** The class method [RunnablePassthrough.assign], called with keyword
    arguments [kwargs]: [return RunnableAssign(RunnableParallel(kwargs))] *)
Definition assign (kwargs : gmap string Runnable) : RunnableAssign.t :=
  RunnableAssign.Mk (RunnableParallel.of_steps kwargs).

(** What the passthrough loop yields for one dict chunk, if anything. *)
Definition passthrough_chunk (mapper_keys : gset string)
    (chunk : gmap string pyobj) : option pyobj :=
  let filtered := RunnableAssign.filter_chunk mapper_keys chunk in
  if decide (filtered = ∅) then None else Some (PDict filtered).

(** ** [RunnableAssign.transform] step by step

    The generator and the background fetch of the first map chunk run
    concurrently.  The state records where the generator stands, whether the
    fetch has completed, and what the caller has received so far. *)
Module AssignRun.

(** [first_map_chunk_future]: not yet completed, or completed with the
    outcome of [next(map_output, None)] and the remaining map output. *)
Inductive future : Type :=
  | Pending
  | Done (r : result pyobj * Stream).

(** The program point of the generator. *)
Inductive pc : Type :=
  | Draining (for_passthrough : list pyobj)
  | Aborting (e : exn)
  | AwaitFirst
  | DrainMap (map_output : Stream)
  | Finished
  | Failed (e : exn).

Record state : Type := MkState {
  main : pc;
  fut : future;
  out : list pyobj
}.

Inductive thread : Type := Main | Background.

Section Machine.
Context (self : RunnableAssign.t) (input : list pyobj)
        (config : RunnableConfig).

Definition mapper_keys : gset string :=
  RunnableParallel.steps_keys (RunnableAssign.mapper self).

Definition map_output : Stream :=
  RunnableParallel.transform (RunnableAssign.mapper self) input config.

(** Both tee branches start at the head of the input; the future has
    been submitted and nothing has been yielded. *)
Definition init : state := MkState (Draining input) Pending [].

(** The executor's worker: it completes the future once. *)
Definition step_background (s : state) : state :=
  match fut s with
  | Pending => MkState (main s) (Done (py_next map_output PNone)) (out s)
  | Done _ => s
  end.

(** One move of the generator.  It consumes a passthrough chunk
    (yielding the filtered chunk, or failing the assertion), or yields
    one map chunk.  It blocks, leaving the state as it is, while it
    waits for the future: in [first_map_chunk_future.result()], and when
    leaving the [with] block of the executor on an exception. *)
Definition step_main (s : state) : state :=
  match main s with
  | Draining [] => MkState AwaitFirst (fut s) (out s)
  | Draining (PDict chunk :: rest) =>
      let filtered := RunnableAssign.filter_chunk mapper_keys chunk in
      if decide (filtered = ∅)
      then MkState (Draining rest) (fut s) (out s)
      else MkState (Draining rest) (fut s) (out s ++ [PDict filtered])
  | Draining (_ :: _) =>
      MkState (Aborting RunnableAssign.must_be_dict) (fut s) (out s)
  | Aborting e =>
      match fut s with
      | Pending => s
      | Done _ => MkState (Failed e) (fut s) (out s)
      end
  | AwaitFirst =>
      match fut s with
      | Pending => s
      | Done (Ok c, rest) => MkState (DrainMap rest) (fut s) (out s ++ [c])
      | Done (Raise e, _) => MkState (Failed e) (fut s) (out s)
      end
  | DrainMap (MkStream (c :: cs) f) =>
      MkState (DrainMap (MkStream cs f)) (fut s) (out s ++ [c])
  | DrainMap (MkStream [] None) => MkState Finished (fut s) (out s)
  | DrainMap (MkStream [] (Some e)) => MkState (Failed e) (fut s) (out s)
  | Finished => s
  | Failed _ => s
  end.

Definition step (th : thread) (s : state) : state :=
  match th with
  | Main => step_main s
  | Background => step_background s
  end.

(** A run under a schedule: which thread moves at each instant. *)
Definition run (sched : list thread) (s : state) : state :=
  foldl (λ s th, step th s) s sched.

(** How the generator has ended, if it has. *)
Definition ended (s : state) : option (option exn) :=
  match main s with
  | Finished => Some None
  | Failed e => Some (Some e)
  | _ => None
  end.

(** What the generator still has to yield from a state on. *)
Definition remaining (s : state) : Stream :=
  match main s with
  | Draining rest =>
      stream_seq (RunnableAssign.drain_passthrough mapper_keys rest)
                 (RunnableAssign.yield_map_output (py_next map_output PNone))
  | Aborting e => stream_raise e
  | AwaitFirst => RunnableAssign.yield_map_output (py_next map_output PNone)
  | DrainMap m => m
  | Finished => stream_stop
  | Failed e => stream_raise e
  end.

(** A bound on the moves the generator still makes once the future is
    completed. *)
Definition fuel (s : state) : nat :=
  match main s with
  | Draining rest => length rest + length (chunks map_output) + 4
  | Aborting _ => 1
  | AwaitFirst => length (chunks map_output) + 3
  | DrainMap m => length (chunks m) + 1
  | Finished | Failed _ => 0
  end.

(** The future is pending, or holds the outcome of
    [next(map_output, None)]. *)
Definition fut_ok (s : state) : Prop :=
  fut s = Pending ∨ fut s = Done (py_next map_output PNone).

(** The invariant of a run: what has been yielded, followed by what
    remains, is the stream [RunnableAssign.transform] denotes. *)
Definition run_inv (s : state) : Prop :=
  fut_ok s
  ∧ MkStream (out s ++ chunks (remaining s)) (failure (remaining s))
    = RunnableAssign.transform self input config.

End Machine.

End AssignRun.

(** ** [RunnableAssign.invoke] over a store of dict objects

    Python passes dictionaries by reference.  To speak about what a call
    does to the caller's record, dict objects live in a store, values hold
    references to them, and a call transforms the store. *)
Module Heap.

Inductive val : Type :=
  | VNone
  | VInt (z : Z)
  | VStr (s : string)
  | VRef (l : positive).

(** The dict objects, by address. *)
Abbreviation store := (gmap positive (gmap string val)) (only parsing).

(** [self.mapper.invoke]: it returns or raises, and may allocate and write. *)
Abbreviation mapper_invoke := (store → val → result val * store) (only parsing).

(** [acc.update(other)] on the contents of two dicts. *)
Definition update (acc other : gmap string val) : gmap string val :=
  other ∪ acc.

(** [invoke]: [isinstance(input, dict)] holds for a reference to a dict
    object.  The dict display creates a new dict and fills it from [input];
    then the mapper runs, and the new dict is filled from what it returns.
    Until it is returned the new dict is known to the display alone; it
    gets its address when the display completes. *)
Definition invoke (mapper : mapper_invoke) (σ : store) (input : val)
    : result val * store :=
  match input with
  | VRef l =>
      match σ !! l with
      | Some d =>
          let new := update ∅ d in
          let '(r, σ1) := mapper σ input in
          match r with
          | Ok (VRef lm) =>
              match σ1 !! lm with
              | Some m =>
                  let new := update new m in
                  let l' := fresh (dom σ1) in
                  (Ok (VRef l'), <[l' := new]> σ1)
              | None => (Raise (TypeError "object is not a mapping"), σ1)
              end
          | Ok _ => (Raise (TypeError "object is not a mapping"), σ1)
          | Raise e => (Raise e, σ1)
          end
      | None => (Raise RunnableAssign.must_be_dict, σ)
      end
  | _ => (Raise RunnableAssign.must_be_dict, σ)
  end.

(** [ainvoke]: the same steps, awaiting the mapper. *)
Definition ainvoke (amapper : mapper_invoke) (σ : store) (input : val)
    : result val * store :=
  match input with
  | VRef l =>
      match σ !! l with
      | Some d =>
          let new := update ∅ d in
          let '(r, σ1) := amapper σ input in
          match r with
          | Ok (VRef lm) =>
              match σ1 !! lm with
              | Some m =>
                  let new := update new m in
                  let l' := fresh (dom σ1) in
                  (Ok (VRef l'), <[l' := new]> σ1)
              | None => (Raise (TypeError "object is not a mapping"), σ1)
              end
          | Ok _ => (Raise (TypeError "object is not a mapping"), σ1)
          | Raise e => (Raise e, σ1)
          end
      | None => (Raise RunnableAssign.must_be_dict, σ)
      end
  | _ => (Raise RunnableAssign.must_be_dict, σ)
  end.

(** A mapper whose one sub-task [b] returns 99 without touching the
    record it is handed: the output record [{b: 99}] is a new object. *)
Definition mapper_b99 : mapper_invoke := λ σ _,
  let lo := fresh (dom σ) in
  (Ok (VRef lo), <[lo := {[ "b" := VInt 99 ]}]> σ).

(** A mapper whose one sub-task [b] removes the key [a] from the record it
    is handed and returns 99.  The record it is handed is the caller's own:
    [invoke] passes [input] itself to [self.mapper.invoke]. *)
Definition mapper_pops_a : mapper_invoke := λ σ input,
  match input with
  | VRef l =>
      let σ' := alter (delete "a") l σ in
      let lo := fresh (dom σ') in
      (Ok (VRef lo), <[lo := {[ "b" := VInt 99 ]}]> σ')
  | _ => (Raise (TypeError "object is not a mapping"), σ)
  end.

End Heap.

(** ** [string_run_evaluator.py] *)

(** The fields of [langchainplus_sdk.schemas.Run] that the mappers read. *)
Module Run.
Record t : Type := Mk {
  id : string;
  run_type : string;
  inputs : gmap string pyobj;
  outputs : option (gmap string pyobj);
  error : option string
}.
End Run.

(** [not run.outputs]: [None] and the empty dict are falsy. *)
Definition not_outputs (outputs : option (gmap string pyobj)) : bool :=
  match outputs with
  | None => true
  | Some o => bool_decide (o = ∅)
  end.

Module ChainStringRunMapper.

Record t : Type := Mk {
  input_key : string;
  prediction_key : string
}.

(** [map]: four guards, each raising [ValueError], then the record of the
    two extracted values. *)
Definition map (self : t) (run : Run.t) : result pyobj :=
  if not_outputs (Run.outputs run) then
    Raise (ValueError ("Run " +:+ Run.id run +:+ " has no outputs to evaluate."))
  else if negb (String.eqb (Run.run_type run) "chain") then
    Raise (ValueError "Chain RunMapper only supports Chain runs.")
  else
    match Run.inputs run !! input_key self with
    | None =>
        Raise (ValueError ("Run " +:+ Run.id run +:+ " does not have input key "
                           +:+ input_key self +:+ "."))
    | Some i =>
        match Run.outputs run ≫= (.!! prediction_key self) with
        | None =>
            Raise (ValueError ("Run " +:+ Run.id run
                               +:+ " does not have prediction key "
                               +:+ prediction_key self +:+ "."))
        | Some p =>
            Ok (PDict (<["prediction" := p]> (<["input" := i]> ∅)))
        end
    end.

(** [StringRunMapper.__call__]: the guard on the outputs, then [map]. *)
Definition __call__ (self : t) (run : Run.t) : result pyobj :=
  if not_outputs (Run.outputs run) then
    Raise (ValueError ("Run " +:+ Run.id run +:+ " has no outputs to evaluate."))
  else map self run.

End ChainStringRunMapper.

(** ** [comparison/embedding.py] *)

(** [class EmbeddingDistance(str, Enum)] *)
Inductive EmbeddingDistance : Type :=
  | COSINE
  | EUCLIDEAN
  | MANHATTAN
  | CHEBYSHEV
  | HAMMING.

(** The array operations the chain calls, from [numpy] and from
    [langchain.math_utils]; the chain composes them and never looks inside
    a number.  The operations are total here: the exceptions [numpy] raises
    itself (rows of unequal length, fewer than two rows, shapes that do not
    match) are not modelled, so the properties below compare calls and
    name the score expression; they do not say that a call succeeds. *)
Class Numpy : Type := {
  float : Type;
  ndarray : Type;
  np_array : list (list float) → ndarray;
  np_getitem : ndarray → nat → ndarray;
  np_reshape_row : ndarray → ndarray;
  np_item : ndarray → float;
  np_sub : ndarray → ndarray → ndarray;
  np_ne : ndarray → ndarray → ndarray;
  np_abs : ndarray → ndarray;
  np_sum : ndarray → ndarray;
  np_max : ndarray → ndarray;
  np_mean : ndarray → ndarray;
  np_linalg_norm : ndarray → ndarray;
  np_one_minus : ndarray → ndarray;
  cosine_similarity : ndarray → ndarray → ndarray
}.

Module PairwiseEmbeddingStringEvalChain.
Section Chain.
Context `{Numpy}.

(** The [Embeddings] interface: documents to vectors, or an exception
    of the provider. *)
Record Embeddings : Type := MkEmbeddings {
  embed_documents : list string → result (list (list float));
  aembed_documents : list string → result (list (list float))
}.

Record t : Type := Mk {
  embeddings : Embeddings;
  distance_metric : EmbeddingDistance
}.

Definition _cosine_distance (a b : ndarray) : ndarray :=
  np_one_minus (cosine_similarity a b).
Definition _euclidean_distance (a b : ndarray) : ndarray :=
  np_linalg_norm (np_sub a b).
Definition _manhattan_distance (a b : ndarray) : ndarray :=
  np_sum (np_abs (np_sub a b)).
Definition _chebyshev_distance (a b : ndarray) : ndarray :=
  np_max (np_abs (np_sub a b)).
Definition _hamming_distance (a b : ndarray) : ndarray :=
  np_mean (np_ne a b).

(** [_get_metric]: the table of the five metrics; every member of the
    enumeration is in it. *)
Definition _get_metric (metric : EmbeddingDistance)
    : result (ndarray → ndarray → ndarray) :=
  match metric with
  | COSINE => Ok _cosine_distance
  | EUCLIDEAN => Ok _euclidean_distance
  | MANHATTAN => Ok _manhattan_distance
  | CHEBYSHEV => Ok _chebyshev_distance
  | HAMMING => Ok _hamming_distance
  end.

Definition _compute_score (self : t) (vectors : ndarray) : result float :=
  metric ← _get_metric (distance_metric self);
  Ok (np_item (metric (np_reshape_row (np_getitem vectors 0))
                      (np_reshape_row (np_getitem vectors 1)))).

(** [inputs[key]] for a record of strings *)
Definition getitem (inputs : gmap string string) (key : string) : result string :=
  match inputs !! key with
  | Some v => Ok v
  | None => Raise (KeyError key)
  end.

Definition _call (self : t) (inputs : gmap string string)
    : result (gmap string float) :=
  prediction ← getitem inputs "prediction";
  prediction_b ← getitem inputs "prediction_b";
  embedded ← embed_documents (embeddings self) [prediction; prediction_b];
  score ← _compute_score self (np_array embedded);
  Ok {[ "score" := score ]}.

Definition _acall (self : t) (inputs : gmap string string)
    : result (gmap string float) :=
  prediction ← getitem inputs "prediction";
  prediction_b ← getitem inputs "prediction_b";
  embedded ← aembed_documents (embeddings self) [prediction; prediction_b];
  score ← _compute_score self (np_array embedded);
  Ok {[ "score" := score ]}.

(** Modelled from the spec: [Chain.__call__] and [Chain.acall] of
    [langchain.chains.base] are not among the sources.  Spec 6: the
    evaluation capability returns a score record; the chain hands its
    inputs to [_call] and returns the record [_call] computed.  The
    callbacks are opaque configuration (spec 3). *)
Definition __call__ (self : t) (inputs : gmap string string)
    (callbacks : RunnableConfig) : result (gmap string float) :=
  _call self inputs.

(** Modelled from the spec: see [__call__]. *)
Definition acall (self : t) (inputs : gmap string string)
    (callbacks : RunnableConfig) : result (gmap string float) :=
  _acall self inputs.

(** [evaluate_string_pairs]: keyword arguments [prediction],
    [prediction_b], [input], [reference], [callbacks]. *)
Definition evaluate_string_pairs (self : t) (prediction prediction_b : string)
    (input reference : option string) (callbacks : RunnableConfig)
    : result (gmap string float) :=
  __call__ self
    (<["prediction_b" := prediction_b]> (<["prediction" := prediction]> ∅))
    callbacks.

Definition aevaluate_string_pairs (self : t) (prediction prediction_b : string)
    (input reference : option string) (callbacks : RunnableConfig)
    : result (gmap string float) :=
  acall self
    (<["prediction_b" := prediction_b]> (<["prediction" := prediction]> ∅))
    callbacks.

End Chain.
End PairwiseEmbeddingStringEvalChain.

(** The array expressions themselves are an instance of [Numpy]: every
    operation builds the expression it stands for.  It serves to run the
    chain on examples without fixing an arithmetic. *)
Inductive np_term : Type :=
  | NpLit (z : Z)
  | NpArray (rows : list (list np_term))
  | NpGetItem (a : np_term) (i : nat)
  | NpReshapeRow (a : np_term)
  | NpItem (a : np_term)
  | NpSub (a b : np_term)
  | NpNe (a b : np_term)
  | NpAbs (a : np_term)
  | NpSum (a : np_term)
  | NpMax (a : np_term)
  | NpMean (a : np_term)
  | NpNorm (a : np_term)
  | NpOneMinus (a : np_term)
  | NpCosineSimilarity (a b : np_term).

Definition numpy_terms : Numpy := {|
  float := np_term;
  ndarray := np_term;
  np_array := NpArray;
  np_getitem := NpGetItem;
  np_reshape_row := NpReshapeRow;
  np_item := NpItem;
  np_sub := NpSub;
  np_ne := NpNe;
  np_abs := NpAbs;
  np_sum := NpSum;
  np_max := NpMax;
  np_mean := NpMean;
  np_linalg_norm := NpNorm;
  np_one_minus := NpOneMinus;
  cosine_similarity := NpCosineSimilarity
|}.

(** An embedding provider for the examples: the length of a document and
    a constant. *)
Definition embed_by_length : list string → result (list (list np_term)) :=
  λ docs, Ok ((λ doc, [NpLit (Z.of_nat (String.length doc)); NpLit 1]) <$> docs).

Definition euclidean_chain
  : @PairwiseEmbeddingStringEvalChain.t numpy_terms :=
  @PairwiseEmbeddingStringEvalChain.Mk numpy_terms
    (@PairwiseEmbeddingStringEvalChain.MkEmbeddings numpy_terms
       embed_by_length embed_by_length)
    EUCLIDEAN.

(** ** Sub-tasks and records of the examples *)

(** [x[key]] *)
Definition py_getitem (x : pyobj) (key : string) : result pyobj :=
  match x with
  | PDict d =>
      match d !! key with
      | Some v => Ok v
      | None => Raise (KeyError key)
      end
  | _ => Raise (TypeError "object is not subscriptable")
  end.

(** [x + y] on integers *)
Definition py_add (x y : pyobj) : result pyobj :=
  match x, y with
  | PInt a, PInt b => Ok (PInt (a + b))
  | _, _ => Raise (TypeError "unsupported operand type(s) for +")
  end.

(** [lambda x: 99] *)
Definition task_returns_99 : Runnable :=
  RunnableLambda (λ _, Ok (PInt 99)).

(** [lambda x: x["a"] + x["b"]], written here without the quotes. *)
Definition task_returns_sum_of_a_b : Runnable :=
  RunnableLambda (λ x, a ← py_getitem x "a"; b ← py_getitem x "b"; py_add a b).

(** [RunnablePassthrough.assign(b=..., c=...)] *)
Definition assign_b_c : RunnableAssign.t :=
  assign {[ "b" := task_returns_99; "c" := task_returns_sum_of_a_b ]}.

(** [RunnablePassthrough.assign()], without sub-tasks *)
Definition assign_nothing : RunnableAssign.t := assign ∅.

Definition record_a1_b2 : gmap string pyobj := {[ "a" := PInt 1; "b" := PInt 2 ]}.
Definition record_a1 : gmap string pyobj := {[ "a" := PInt 1 ]}.
Definition record_b2 : gmap string pyobj := {[ "b" := PInt 2 ]}.

(** ** More exceptions

    The evaluator code raises, besides the exceptions above, Python's
    [IndexError], [NotImplementedError] and [AttributeError]. *)
Inductive exc : Type :=
  | Exn (e : exn)
  | IndexError (msg : string)
  | NotImplementedError (msg : string)
  | AttributeError (msg : string).

(** Outcome of a call that may raise any of them. *)
Inductive outcome (A : Type) : Type :=
  | Returned (a : A)
  | Raised (e : exc).
Arguments Returned {A} a.
Arguments Raised {A} e.

#[global] Instance outcome_ret : MRet outcome := λ A a, Returned a.
#[global] Instance outcome_fmap : FMap outcome := λ A B f r,
  match r with
  | Returned a => Returned (f a)
  | Raised e => Raised e
  end.
#[global] Instance outcome_bind : MBind outcome := λ A B f r,
  match r with
  | Returned a => f a
  | Raised e => Raised e
  end.

(** A call of the code above inside the code below. *)
Definition lift {A : Type} (r : result A) : outcome A :=
  match r with
  | Ok a => Returned a
  | Raise e => Raised (Exn e)
  end.

(** The line feed, written "\n" in Python. *)
Definition newline : string :=
  String (Ascii.Ascii false true false true false false false false) "".

(** [sep.join(l)] for a list of strings *)
Fixpoint join (sep : string) (l : list string) : string :=
  match l with
  | [] => ""
  | [s] => s
  | s :: l' => s +:+ sep +:+ join sep l'
  end.

(** [l[0]] for a list *)
Definition list_getitem0 {A : Type} (l : list A) : outcome A :=
  match l with
  | x :: _ => Returned x
  | [] => Raised (IndexError "list index out of range")
  end.

(** [d[key]] for a dict *)
Definition dict_getitem (d : gmap string pyobj) (key : string) : result pyobj :=
  match d !! key with
  | Some v => Ok v
  | None => Raise (KeyError key)
  end.

(** ** [string_run_evaluator.py], the other mappers *)

(** [StringRunMapper.output_keys] *)
Definition StringRunMapper_output_keys : list string := ["prediction"; "input"].

Module ToolStringRunMapper.

(** [map]: the guard on the outputs, then the record of [run.inputs["input"]]
    and [run.outputs["output"]], read in this order. *)
Definition map (run : Run.t) : result pyobj :=
  match Run.outputs run with
  | None =>
      Raise (ValueError ("Run " +:+ Run.id run +:+ " has no outputs to evaluate."))
  | Some outputs =>
      if decide (outputs = ∅) then
        Raise (ValueError ("Run " +:+ Run.id run +:+ " has no outputs to evaluate."))
      else
        i ← dict_getitem (Run.inputs run) "input";
        p ← dict_getitem outputs "output";
        Ok (PDict (<["prediction" := p]> (<["input" := i]> ∅)))
  end.

End ToolStringRunMapper.

(** The fields of [langchainplus_sdk.schemas.Example] that the mapper
    reads. *)
Module Example.
Record t : Type := Mk {
  id : string;
  inputs : gmap string pyobj;
  outputs : option (gmap string pyobj)
}.
End Example.

Module StringExampleMapper.

Record t : Type := Mk { reference_key : option string }.

(** [output_keys] *)
Definition output_keys : list string := ["reference"].

(** [map]: without a reference key the only output is the reference,
    [list(example.outputs.values())[0]]; with one, the output under it. *)
Definition map (self : t) (example : Example.t) : outcome pyobj :=
  match Example.outputs example with
  | None =>
      Raised (Exn (ValueError ("Example " +:+ Example.id example
                               +:+ " has no outputs to use as a reference.")))
  | Some outputs =>
      if decide (outputs = ∅) then
        Raised (Exn (ValueError ("Example " +:+ Example.id example
                                 +:+ " has no outputs to use as a reference.")))
      else
        match reference_key self with
        | None =>
            if decide (1 < size outputs)%nat then
              Raised (Exn (ValueError ("Example " +:+ Example.id example
                                       +:+ " has multiple outputs, so you must"
                                       +:+ " specify a reference_key.")))
            else
              v ← list_getitem0 (map_to_list outputs).*2;
              Returned (PDict {[ "reference" := v ]})
        | Some key =>
            match outputs !! key with
            | None =>
                Raised (Exn (ValueError ("Example " +:+ Example.id example
                                         +:+ " does not have reference key"
                                         +:+ " " +:+ key +:+ ".")))
            | Some v => Returned (PDict {[ "reference" := v ]})
            end
        end
  end.

(** [__call__]: a guard of its own on the outputs, then [map]. *)
Definition __call__ (self : t) (example : Example.t) : outcome pyobj :=
  match Example.outputs example with
  | None =>
      Raised (Exn (ValueError ("Example " +:+ Example.id example
                               +:+ " has no outputs to use as areference label.")))
  | Some outputs =>
      if decide (outputs = ∅) then
        Raised (Exn (ValueError ("Example " +:+ Example.id example
                                 +:+ " has no outputs to use as areference label.")))
      else map self example
  end.

End StringExampleMapper.

(** The fields of [langchain.chains.base.Chain] that [from_chain] reads. *)
Module Chain.
Record t : Type := Mk {
  lc_namespace : list string;
  input_keys : list string;
  output_keys : list string
}.
End Chain.

Module ChainStringRunMapperFromChain.
Section FromChain.
(** Python's [str] of a list of strings, as the f-strings format
    [model.lc_namespace]. *)
Context (py_str : list string → string).

(** [ChainStringRunMapper.from_chain]: each key is taken as given, or
    defaults to the only key of the chain; the complaints are collected in
    [error_messages] and raised together. *)
Definition from_chain (model : Chain.t) (input_key prediction_key : option string)
    : outcome ChainStringRunMapper.t :=
  let error_messages : list string := [] in
  '(input_key, error_messages) ←
    match input_key with
    | None =>
        if decide (1 < length (Chain.input_keys model))%nat then
          Returned (None, error_messages ++
            ["Chain " +:+ py_str (Chain.lc_namespace model) +:+ " has multiple input"
             +:+ " keys. Please specify 'input_key' when loading."])
        else
          k ← list_getitem0 (Chain.input_keys model);
          Returned (Some k, error_messages)
    | Some k =>
        if decide (k ∈ Chain.input_keys model) then
          Returned (Some k, error_messages)
        else
          Returned (Some k, error_messages ++
            ["Chain " +:+ py_str (Chain.lc_namespace model) +:+ " does not have specified"
             +:+ " input key " +:+ k +:+ "."])
    end;
  '(prediction_key, error_messages) ←
    match prediction_key with
    | None =>
        if decide (1 < length (Chain.output_keys model))%nat then
          Returned (None, error_messages ++
            ["Chain " +:+ py_str (Chain.lc_namespace model) +:+ " has multiple"
             +:+ " output keys. Please specify 'prediction_key' when loading."])
        else
          k ← list_getitem0 (Chain.output_keys model);
          Returned (Some k, error_messages)
    | Some k =>
        if decide (k ∈ Chain.output_keys model) then
          Returned (Some k, error_messages)
        else
          Returned (Some k, error_messages ++
            ["Chain " +:+ py_str (Chain.lc_namespace model) +:+ " does not have specified"
             +:+ " prediction_key " +:+ k +:+ "."])
    end;
  match error_messages with
  | _ :: _ => Raised (Exn (ValueError (join newline error_messages)))
  | [] =>
      match input_key, prediction_key with
      | Some input_key, Some prediction_key =>
          Returned (ChainStringRunMapper.Mk input_key prediction_key)
      | _, _ =>
          Raised (Exn (ValueError ("Chain " +:+ py_str (Chain.lc_namespace model)
                                   +:+ " has no input or output keys.")))
      end
  end.

End FromChain.
End ChainStringRunMapperFromChain.

(** Whether [from_chain] can settle a key: a given key must be one of the
    chain's, an omitted key needs the chain to have exactly one. *)
Definition resolvable (given : option string) (keys : list string) : Prop :=
  match given with
  | Some k => k ∈ keys
  | None => length keys = 1%nat
  end.

(** The formatting of a list of strings used in the examples, for plain
    strings: the items in quotes, separated by commas, in brackets. *)
Definition str_of_list (l : list string) : string :=
  "[" +:+ join ", " ((λ s, "'" +:+ s +:+ "'") <$> l) +:+ "]".

Definition llm_chain : Chain.t :=
  Chain.Mk ["langchain"; "chains"; "llm"] ["question"] ["text"].

(** [acc.update(other)] on objects: the receiver must be a dict (anything
    else has no such method), and the argument a dict or an iterable of
    pairs, which of the other objects only the empty string is. *)
Definition py_update (acc other : pyobj) : outcome pyobj :=
  match acc with
  | PDict a =>
      match other with
      | PDict o => Returned (PDict (dict_update a o))
      | PStr "" => Returned (PDict a)
      | PStr _ =>
          Raised (Exn (ValueError
            "dictionary update sequence element #0 has length 1; 2 is required"))
      | _ => Raised (Exn (TypeError "object is not iterable"))
      end
  | _ => Raised (AttributeError "object has no attribute 'update'")
  end.

Module StringRunEvaluatorChain.

(** What [from_model_and_evaluator] reads of a [StringEvaluator]. *)
Record StringEvaluator : Type := MkEvaluator {
  evaluation_name : string;
  requires_reference : bool
}.

(** The model handed to [from_model_and_evaluator], by the class the
    [isinstance] tests find: a language model, a chain, a tool, or an
    object of another type, with the text of that type. *)
Inductive Model : Type :=
  | ModelLanguageModel
  | ModelChain (c : Chain.t)
  | ModelTool
  | ModelOther (type_str : string).

(** The run mapper of a chain, by its class: [LLMStringRunMapper()],
    a [ChainStringRunMapper] with its two keys, [ToolStringRunMapper()]. *)
Inductive StringRunMapper : Type :=
  | MapperLLM
  | MapperChain (m : ChainStringRunMapper.t)
  | MapperTool.

Record t : Type := Mk {
  run_mapper : StringRunMapper;
  example_mapper : option StringExampleMapper.t;
  name : string;
  string_evaluator : StringEvaluator
}.

(** [input_keys] and [output_keys] *)
Definition input_keys : list string := ["run"; "example"].
Definition output_keys : list string := ["feedback"].

(** [_prepare_input]: [run_mapper] is [self.run_mapper] as the function
    its call is, [example_mapper] and [name] are the fields of [self], and
    [run] and [example] the entries of [inputs]; [evaluate_run] is the
    caller that builds [inputs], with an optional example. *)
Definition _prepare_input (run_mapper : Run.t → result pyobj)
    (example_mapper : option StringExampleMapper.t) (name : string)
    (run : Run.t) (example : option Example.t) : outcome pyobj :=
  evaluate_strings_inputs ← lift (run_mapper run);
  match example_mapper with
  | Some example_mapper =>
      match example with
      | None =>
          Raised (Exn (ValueError
            ("Evaluator " +:+ name +:+ " requires an reference"
             +:+ " example from the dataset,"
             +:+ " but none was provided for run " +:+ Run.id run +:+ ".")))
      | Some example =>
          reference ← StringExampleMapper.__call__ example_mapper example;
          py_update evaluate_strings_inputs reference
      end
  | None => Returned evaluate_strings_inputs
  end.

Section FromModel.
Context (py_str : list string → string).

(** [from_model_and_evaluator]: the run mapper by the class of the model,
    then the example mapper by the reference key and the needs of the
    evaluator.  [cls_name] is [cls.__name__]. *)
Definition from_model_and_evaluator (cls_name : string) (model : Model)
    (evaluator : StringEvaluator)
    (input_key prediction_key reference_key : option string) : outcome t :=
  run_mapper ←
    match model with
    | ModelLanguageModel => Returned MapperLLM
    | ModelChain c =>
        m ← ChainStringRunMapperFromChain.from_chain py_str c input_key prediction_key;
        Returned (MapperChain m)
    | ModelTool => Returned MapperTool
    | ModelOther type_str =>
        Raised (NotImplementedError
          (cls_name +:+ ".from_model_and_evaluator(" +:+ type_str +:+ ")"
           +:+ " not yet implemented."
           +:+ "Expected one of [BaseLanguageModel, Chain, Tool]."))
    end;
  example_mapper ←
    match reference_key with
    | Some key => Returned (Some (StringExampleMapper.Mk (Some key)))
    | None =>
        if requires_reference evaluator then
          Raised (Exn (ValueError
            ("Evaluator " +:+ evaluation_name evaluator +:+ " requires a reference"
             +:+ " example from the dataset. Please specify the reference key from"
             +:+ " amongst the dataset outputs keys.")))
        else Returned None
    end;
  Returned (Mk run_mapper example_mapper (evaluation_name evaluator) evaluator).

End FromModel.

End StringRunEvaluatorChain.

(** A run of a chain, an example of the dataset and an evaluator, for the
    examples. *)
Definition chain_run : Run.t :=
  Run.Mk "r1" "chain" {[ "question" := PStr "2+2?" ]}
         (Some {[ "text" := PStr "4" ]}) None.

Definition dataset_example : Example.t :=
  Example.Mk "e1" {[ "question" := PStr "2+2?" ]} (Some {[ "answer" := PStr "4" ]}).

Definition qa_evaluator : StringRunEvaluatorChain.StringEvaluator :=
  StringRunEvaluatorChain.MkEvaluator "correctness" true.

(** The record a consumer holds after writing the chunks one after the
    other into a dict with [update]. *)
Definition accumulate (l : list (gmap string pyobj)) : gmap string pyobj :=
  foldl dict_update ∅ l.

(** ** [LLMStringRunMapper]

    The runs of language models hold lists: of prompts, of batches of
    generations.  Their values are modelled with lists, and with dicts that
    keep the order of their keys, as iterating them shows it. *)
Module LLM.

Inductive jval : Type :=
  | JNone
  | JBool (b : bool)
  | JInt (z : Z)
  | JStr (s : string)
  | JList (l : list jval)
  | JDict (d : list (string * jval)).

(** A dict, by its items in order; its keys are distinct. *)
Abbreviation jdict := (list (string * jval)) (only parsing).

(** [d.get(key)] *)
Fixpoint dict_get (d : jdict) (key : string) : option jval :=
  match d with
  | [] => None
  | (k, v) :: d' => if String.eqb key k then Some v else dict_get d' key
  end.

(** The fields of [langchainplus_sdk.schemas.Run] that the mapper reads. *)
Record Run : Type := MkRun {
  id : string;
  run_type : string;
  inputs : list (string * jval);
  outputs : option (list (string * jval));
  error : option string
}.

(** [bool(x)] *)
Definition truthy (x : jval) : bool :=
  match x with
  | JNone => false
  | JBool b => b
  | JInt z => negb (Z.eqb z 0)
  | JStr s => negb (String.eqb s "")
  | JList l => match l with [] => false | _ => true end
  | JDict d => match d with [] => false | _ => true end
  end.

(** The characters of a string, each as a string. *)
Fixpoint chars (s : string) : list string :=
  match s with
  | "" => []
  | String c s' => String c "" :: chars s'
  end.

(** [iter(x)], driven to its end *)
Definition py_iter (x : jval) : outcome (list jval) :=
  match x with
  | JList l => Returned l
  | JStr s => Returned (JStr <$> chars s)
  | JDict d => Returned (JStr <$> d.*1)
  | _ => Raised (Exn (TypeError "object is not iterable"))
  end.

(** The items of a list that [str.join] accepts *)
Fixpoint all_str (l : list jval) : outcome (list string) :=
  match l with
  | [] => Returned []
  | JStr s :: l' => strs ← all_str l'; Returned (s :: strs)
  | _ :: _ => Raised (Exn (TypeError "sequence item: expected str instance"))
  end.

(** [sep.join(x)] *)
Definition str_join (sep : string) (x : jval) : outcome string :=
  items ← py_iter x;
  strs ← all_str items;
  Returned (join sep strs).

(** [needle in hay] for strings *)
Fixpoint substring_of (needle hay : string) : bool :=
  String.prefix needle hay
  || match hay with
     | "" => false
     | String _ hay' => substring_of needle hay'
     end.

(** [key in x] for a string [key] *)
Definition py_contains (key : string) (x : jval) : outcome bool :=
  match x with
  | JDict d => Returned (bool_decide (is_Some (dict_get d key)))
  | JList l =>
      Returned (existsb (λ v, match v with JStr s => String.eqb s key | _ => false end) l)
  | JStr s => Returned (substring_of key s)
  | _ => Raised (Exn (TypeError "argument is not iterable"))
  end.

(** [x[0]] *)
Definition py_getitem0 (x : jval) : outcome jval :=
  match x with
  | JList l => list_getitem0 l
  | JStr s =>
      match s with
      | "" => Raised (IndexError "string index out of range")
      | String c _ => Returned (JStr (String c ""))
      end
  | JDict _ => Raised (Exn (KeyError "0"))
  | _ => Raised (Exn (TypeError "object is not subscriptable"))
  end.

(** [x[key]] for a string [key] *)
Definition py_getitem (x : jval) (key : string) : outcome jval :=
  match x with
  | JDict d =>
      match dict_get d key with
      | Some v => Returned v
      | None => Raised (Exn (KeyError key))
      end
  | JList _ => Raised (Exn (TypeError "list indices must be integers or slices, not str"))
  | JStr _ => Raised (Exn (TypeError "string indices must be integers"))
  | _ => Raised (Exn (TypeError "object is not subscriptable"))
  end.

(** [[f(x) for x in l]], stopping at the first exception *)
Fixpoint map_outcome {A B : Type} (f : A → outcome B) (l : list A)
    : outcome (list B) :=
  match l with
  | [] => Returned []
  | x :: l' => y ← f x; ys ← map_outcome f l'; Returned (y :: ys)
  end.

(** [[f(x) for b in l for x in g(b)]] *)
Fixpoint flat_map_outcome {A B : Type} (f : A → outcome (list B)) (l : list A)
    : outcome (list B) :=
  match l with
  | [] => Returned []
  | x :: l' => ys ← f x; zs ← flat_map_outcome f l'; Returned (ys ++ zs)
  end.

(** [try: body; except Exception: raise ValueError(msg)] *)
Definition or_value_error {A : Type} (body : outcome A) (msg : string) : outcome A :=
  match body with
  | Returned a => Returned a
  | Raised _ => Raised (Exn (ValueError msg))
  end.

Section Mapper.
(** [messages_from_dict] and [get_buffer_string] of [langchain.schema] are
    not among the sources; [messages] is what the first returns.  Python's
    [str] of a dict formats the records in the messages of [map]. *)
Context {messages : Type}
        (messages_from_dict : jval → outcome messages)
        (get_buffer_string : messages → outcome string)
        (py_str : list (string * jval) → string).

Definition two_newlines : string := newline +:+ newline.

(** [serialize_chat_messages] *)
Definition serialize_chat_messages (msgs : jval) : outcome string :=
  chat_messages ← messages_from_dict msgs;
  get_buffer_string chat_messages.

(** [serialize_inputs]: the prompts joined, or the prompt as it is, or the
    messages serialized. *)
Definition serialize_inputs (inputs : list (string * jval)) : outcome jval :=
  match dict_get inputs "prompts" with
  | Some prompts => JStr <$> str_join two_newlines prompts
  | None =>
      match dict_get inputs "prompt" with
      | Some prompt => Returned prompt
      | None =>
          match dict_get inputs "messages" with
          | Some msgs => JStr <$> serialize_chat_messages msgs
          | None =>
              Raised (Exn (ValueError
                "LLM Run must have either messages or prompts as inputs."))
          end
      end
  end.

(** [serialize_outputs]: the messages of the first generation, or the
    texts of all generations of all batches, joined. *)
Definition serialize_outputs (outputs : list (string * jval)) : outcome string :=
  match dict_get outputs "generations" with
  | None => Raised (Exn (ValueError "LLM Run must have generations as outputs."))
  | Some generations =>
      if negb (truthy generations) then
        Raised (Exn (ValueError "LLM Run must have generations as outputs."))
      else
        first ← py_getitem0 generations;
        has_messages ← py_contains "messages" first;
        if (has_messages : bool) then
          msgs ← py_getitem first "messages";
          serialize_chat_messages msgs
        else
          gen_batches ← py_iter generations;
          texts ← flat_map_outcome
                    (λ gen_batch,
                       gens ← py_iter gen_batch;
                       map_outcome (λ generation, py_getitem generation "text") gens)
                    gen_batches;
          strs ← all_str texts;
          Returned (join two_newlines strs)
  end.

(** [not run.outputs] *)
Definition no_outputs (outputs : option (list (string * jval))) : bool :=
  match outputs with
  | None | Some [] => true
  | Some (_ :: _) => false
  end.

(** [map] *)
Definition map (run : Run) : outcome (list (string * jval)) :=
  if negb (String.eqb (run_type run) "llm") then
    Raised (Exn (ValueError "LLM RunMapper only supports LLM runs."))
  else
    match outputs run with
    | Some ((_ :: _) as outs) =>
        inputs_ ← or_value_error (serialize_inputs (inputs run))
                    ("Could not parse LM input from run inputs "
                     +:+ py_str (inputs run));
        output_ ← or_value_error (serialize_outputs outs)
                    ("Could not parse LM prediction from run outputs "
                     +:+ py_str outs);
        Returned [("input", inputs_); ("prediction", JStr output_)]
    | _ =>
        match error run with
        | Some (String c err) =>
            Raised (Exn (ValueError ("Cannot evaluate errored LLM run " +:+ id run
                                     +:+ ": " +:+ String c err)))
        | _ =>
            Raised (Exn (ValueError ("Run " +:+ id run
                                     +:+ " outputs not found. Please make sure this")))
        end
    end.

(** [StringRunMapper.__call__] *)
Definition __call__ (run : Run) : outcome (list (string * jval)) :=
  if no_outputs (outputs run) then
    Raised (Exn (ValueError ("Run " +:+ id run +:+ " has no outputs to evaluate.")))
  else map run.

End Mapper.

End LLM.

(** A run of a language model for the examples: two prompts, one batch
    with one generation. *)
Definition llm_run : LLM.Run :=
  LLM.MkRun "r2" "llm"
    [("prompts", LLM.JList [LLM.JStr "Hello"; LLM.JStr "World"])]
    (Some [("generations",
            LLM.JList [LLM.JList [LLM.JDict [("text", LLM.JStr "Hi")]]])])
    None.

(** A run of another type handed to the mapper of language models. *)
Definition not_llm_run : LLM.Run :=
  LLM.MkRun "r3" "chain" [("question", LLM.JStr "2+2?")]
    (Some [("text", LLM.JStr "4")]) None.

(** * Properties *)

(** ** Streams *)

Lemma stream_seq_stop_r (s : Stream) : stream_seq s stream_stop = s.
Proof.
  destruct s as [cs [e|]]; unfold stream_seq; simpl; [done|].
  by rewrite app_nil_r.
Qed.

Lemma stream_seq_yield (x : pyobj) (s k : Stream) :
  stream_seq (stream_yield x s) k = stream_yield x (stream_seq s k).
Proof. destruct s as [cs [e|]]; reflexivity. Qed.

Lemma stream_seq_stop_l (k : Stream) : stream_seq stream_stop k = k.
Proof. by destruct k. Qed.

Lemma stream_seq_raise (e : exn) (k : Stream) :
  stream_seq (stream_raise e) k = stream_raise e.
Proof. reflexivity. Qed.

Lemma stream_seq_chunks (s k : Stream) :
  chunks (stream_seq s k)
  = chunks s ++ (if failure s is None then chunks k else []).
Proof.
  destruct s as [cs [e|]]; unfold stream_seq; simpl; [|done].
  by rewrite app_nil_r.
Qed.

Lemma stream_seq_failure (s k : Stream) :
  failure (stream_seq s k) = if failure s is Some e then Some e else failure k.
Proof. by destruct s as [cs [e|]]. Qed.

(** [next] followed by the rest gives back the generator it was taken
    from, except that an exhausted generator gives the default. *)
Lemma yield_map_output_next (map_output : Stream) :
  chunks map_output ≠ [] →
  RunnableAssign.yield_map_output (py_next map_output PNone) = map_output.
Proof.
  destruct map_output as [[|c cs] f]; simpl; [done|]. by intros _.
Qed.

Lemma yield_map_output_exhausted :
  RunnableAssign.yield_map_output (py_next stream_stop PNone)
  = stream_yield PNone stream_stop.
Proof. reflexivity. Qed.

(** ** The passthrough loop *)

Lemma filter_chunk_lookup (mapper_keys : gset string)
    (chunk : gmap string pyobj) (k : string) :
  RunnableAssign.filter_chunk mapper_keys chunk !! k
  = if decide (k ∈ mapper_keys) then None else chunk !! k.
Proof.
  unfold RunnableAssign.filter_chunk. rewrite map_lookup_filter.
  destruct (chunk !! k) as [v|] eqn:Hk; simpl.
  - case_decide; [by rewrite option_guard_False; [|simpl; tauto]|].
    by rewrite option_guard_True.
  - by case_decide.
Qed.

Lemma drain_passthrough_dicts (mapper_keys : gset string)
    (ds : list (gmap string pyobj)) :
  RunnableAssign.drain_passthrough mapper_keys (PDict <$> ds)
  = stream_of_list (omap (passthrough_chunk mapper_keys) ds).
Proof.
  induction ds as [|d ds IH]; [done|].
  rewrite fmap_cons. cbn [RunnableAssign.drain_passthrough omap list_omap].
  rewrite IH. unfold passthrough_chunk.
  by case_decide.
Qed.

Lemma drain_passthrough_app (mapper_keys : gset string) (l1 l2 : list pyobj) :
  RunnableAssign.drain_passthrough mapper_keys (l1 ++ l2)
  = stream_seq (RunnableAssign.drain_passthrough mapper_keys l1)
               (RunnableAssign.drain_passthrough mapper_keys l2).
Proof.
  induction l1 as [|x l1 IH]; simpl.
  - by rewrite stream_seq_stop_l.
  - destruct x; try done.
    case_decide; [done|]. by rewrite stream_seq_yield, IH.
Qed.

Lemma drain_passthrough_bad (mapper_keys : gset string)
    (ds : list (gmap string pyobj)) (x : pyobj) (rest : list pyobj) :
  isinstance_dict x = false →
  RunnableAssign.drain_passthrough mapper_keys ((PDict <$> ds) ++ x :: rest)
  = MkStream (omap (passthrough_chunk mapper_keys) ds)
             (Some RunnableAssign.must_be_dict).
Proof.
  intros Hx. rewrite drain_passthrough_app, drain_passthrough_dicts.
  destruct x; try done; unfold stream_seq; simpl; by rewrite app_nil_r.
Qed.

(** An input is either all dicts, or splits at its first item that is not
    a dict. *)
Lemma split_at_first_non_dict (input : list pyobj) :
  (∃ ds, input = PDict <$> ds)
  ∨ (∃ ds x rest, input = (PDict <$> ds) ++ x :: rest ∧ isinstance_dict x = false).
Proof.
  induction input as [|x input IH]; [left; by exists []|].
  destruct (isinstance_dict x) eqn:Hx.
  - destruct x as [| | |d]; try done.
    destruct IH as [[ds ->]|(ds & y & rest & -> & Hy)].
    + left. by exists (d :: ds).
    + right. by exists (d :: ds), y, rest.
  - right. by exists [], x, input.
Qed.

Lemma transform_unfold (self : RunnableAssign.t) (input : list pyobj)
    (config : RunnableConfig) :
  RunnableAssign.transform self input config
  = stream_seq
      (RunnableAssign.drain_passthrough
         (RunnableParallel.steps_keys (RunnableAssign.mapper self)) input)
      (RunnableAssign.yield_map_output
         (py_next (RunnableParallel.transform (RunnableAssign.mapper self) input config)
                  PNone)).
Proof. reflexivity. Qed.

Lemma atransform_transform (self : RunnableAssign.t) (input : list pyobj)
    (config : RunnableConfig) :
  RunnableAssign.atransform self input config
  = RunnableAssign.transform self input config.
Proof. reflexivity. Qed.

Lemma ainvoke_invoke (self : RunnableAssign.t) (input : pyobj)
    (config : RunnableConfig) :
  RunnableAssign.ainvoke self input config = RunnableAssign.invoke self input config.
Proof. reflexivity. Qed.

(** ** Runs of [RunnableAssign.transform] *)

Section RunFacts.
Context (self : RunnableAssign.t) (input : list pyobj) (config : RunnableConfig).

Import AssignRun.

#[local] Abbreviation keys := (mapper_keys self).
#[local] Abbreviation mo := (map_output self input config).
#[local] Abbreviation step := (AssignRun.step self input config).
#[local] Abbreviation run := (AssignRun.run self input config).

#[local] Abbreviation remaining := (AssignRun.remaining self input config).
#[local] Abbreviation fuel := (AssignRun.fuel self input config).
#[local] Abbreviation fut_ok := (AssignRun.fut_ok self input config).
#[local] Abbreviation run_inv := (AssignRun.run_inv self input config).

Lemma run_inv_init : run_inv (init input).
Proof.
  split; [by left|]. rewrite transform_unfold. simpl.
  unfold remaining; simpl. by destruct (stream_seq _ _).
Qed.

Lemma run_inv_step (th : thread) (s : state) :
  run_inv s → run_inv (step th s).
Proof.
  intros [Hf Hs]. destruct s as [p f o]. destruct th.
  - (* the generator moves *)
    unfold AssignRun.step, step_main, run_inv, remaining, fut_ok in *.
    cbn [main fut out] in *.
    destruct p as [[|x rest]|e| |[[|c cs] fl]| |e].
    + rewrite stream_seq_stop_l in Hs. by cbn [main fut out].
    + destruct x as [| | |d]; cbn [RunnableAssign.drain_passthrough] in Hs;
        try (rewrite stream_seq_raise in Hs; by cbn [main fut out]).
      case_decide; cbn [main fut out]; [done|].
      split; [done|]. rewrite stream_seq_yield in Hs.
      cbn [stream_yield chunks failure] in Hs.
      by rewrite <- app_assoc.
    + destruct f as [|r]; by cbn [main fut out].
    + destruct Hf as [-> | ->]; [cbn [main fut out]; split; [by left|done]|].
      destruct mo as [[|c cs] [e|]]; cbn in Hs |- *;
        (split; [by right|]); first [done | by rewrite <- app_assoc].
    + destruct fl as [e|]; cbn [main fut out]; by rewrite app_nil_r in *.
    + cbn [main fut out chunks failure] in *.
      split; [done|]. by rewrite <- app_assoc.
    + by cbn [main fut out].
    + by cbn [main fut out].
  - (* the future completes *)
    unfold AssignRun.step, step_background, run_inv, fut_ok, remaining in *.
    cbn [main fut out] in *.
    destruct f; cbn [main fut out]; [|done]. split; [by right|done].
Qed.

Lemma run_app (sched1 sched2 : list thread) (s : state) :
  run (sched1 ++ sched2) s = run sched2 (run sched1 s).
Proof. apply foldl_app. Qed.

Lemma run_inv_run (sched : list thread) (s : state) :
  run_inv s → run_inv (run sched s).
Proof.
  revert s. induction sched as [|th sched IH]; intros s Hs; [done|].
  simpl. apply IH. by apply run_inv_step.
Qed.

(** At every point of every run the caller has received a prefix of the
    stream [transform] denotes. *)
Lemma run_out_prefix (sched : list thread) :
  out (run sched (init input))
  `prefix_of` chunks (RunnableAssign.transform self input config).
Proof.
  destruct (run_inv_run sched _ run_inv_init) as [_ <-]. simpl.
  by eexists.
Qed.

(** A run that has ended has yielded the whole stream, and ended as it
    does. *)
Lemma run_ended (sched : list thread) (e : option exn) :
  ended (run sched (init input)) = Some e →
  MkStream (out (run sched (init input))) e
  = RunnableAssign.transform self input config.
Proof.
  destruct (run_inv_run sched _ run_inv_init) as [_ <-].
  unfold ended, remaining.
  destruct (main _); intros [= <-]; simpl; by rewrite app_nil_r.
Qed.

Lemma step_main_ended (s : state) :
  ended s ≠ None → step_main self s = s.
Proof. destruct s as [p f o]; destruct p; unfold ended; simpl; done. Qed.

Lemma step_main_fuel (s : state) :
  fut s = Done (py_next mo PNone) →
  ended s = None →
  fut (step_main self s) = fut s ∧ (fuel (step_main self s) < fuel s)%nat.
Proof.
  destruct s as [p f o]. simpl. intros -> Hne.
  unfold step_main, fuel; simpl.
  destruct p as [[|x rest]|e| |[[|c cs] [e|]]| |e]; simpl in *; try done;
    try (split; [done|lia]).
  - destruct x; simpl; try (split; [done|lia]).
    case_decide; simpl; split; try done; lia.
  - destruct mo as [[|c cs] [e|]]; simpl; split; try done; lia.
Qed.

Lemma main_completes (n : nat) (s : state) :
  fut s = Done (py_next mo PNone) →
  (fuel s ≤ n)%nat →
  ended (run (replicate n Main) s) ≠ None.
Proof.
  revert s. induction n as [|n IH]; intros s Hf Hn; simpl.
  - destruct s as [p f o]; destruct p; unfold fuel, ended in *; simpl in *;
      try lia; done.
  - destruct (ended s) as [oe|] eqn:He.
    + rewrite step_main_ended by (by rewrite He).
      apply IH; [done|].
      destruct s as [p f o]; destruct p; unfold fuel, ended in *; simpl in *;
        try done; lia.
    + destruct (step_main_fuel s Hf He) as [Hf' Hlt].
      apply IH; [by rewrite Hf'|lia].
Qed.

(** From every point of every run the generator comes to its end: let
    the executor complete the future and the generator make its moves. *)
Lemma run_completes (sched : list thread) :
  let s := run sched (init input) in
  ∃ e, ended (run (sched ++ Background :: replicate (fuel (step Background s)) Main)
                  (init input)) = Some e.
Proof.
  intros s. rewrite run_app. simpl. fold s.
  pose proof (run_inv_run sched _ run_inv_init) as [Hf _]. fold s in Hf.
  assert (fut (step_background self input config s) = Done (py_next mo PNone)) as Hd.
  { unfold step_background. destruct Hf as [-> | Hf]; [done|]. by rewrite Hf. }
  pose proof (main_completes _ _ Hd (le_n _)) as Hend.
  destruct (ended _) as [e|]; [by exists e|done].
Qed.

End RunFacts.

(** ** The identity unit *)

(** C6: the identity unit returns its input unchanged, [invoke(x) = x], and
    its [transform] yields exactly the input chunks, chunk for chunk and in
    order, without accumulating them; the asynchronous modes and [stream]
    do the same. *)
Theorem passthrough_identity :
  (∀ (x : pyobj), identity x = x)
  ∧ (∀ x config, RunnablePassthrough.invoke x config = Ok x)
  ∧ (∀ x config, RunnablePassthrough.ainvoke x config = Ok x)
  ∧ (∀ input config,
       RunnablePassthrough.transform input config = MkStream input None)
  ∧ (∀ input config,
       RunnablePassthrough.atransform input config = MkStream input None)
  ∧ (∀ input config i,
       chunks (RunnablePassthrough.transform input config) !! i = input !! i)
  ∧ (∀ x config, RunnablePassthrough.stream x config = MkStream [x] None).
Proof.
  repeat split; try reflexivity.
  intros input config. unfold RunnablePassthrough.atransform.
  by rewrite stream_seq_stop_r.
Qed.

(** ** [RunnableAssign.invoke] *)

Lemma assign_invoke_ok (self : RunnableAssign.t)
    (d : gmap string pyobj) (config : RunnableConfig) (m : gmap string pyobj) :
  RunnableParallel.invoke (RunnableAssign.mapper self) (PDict d) config
    = Ok (PDict m) →
  RunnableAssign.invoke self (PDict d) config = Ok (PDict (m ∪ d)).
Proof.
  intros Hm. unfold RunnableAssign.invoke. rewrite Hm. simpl.
  unfold dict_update. by rewrite (right_id_L ∅ (∪)).
Qed.

(** C3: on a dict input [d] for which the mapper returns the record [m],
    [invoke] returns the union of [d] and [m] in which the keys of [m] take
    precedence: a key of [m] has the value [m] gives it, every other key has
    the value [d] gives it, and no other key appears. *)
Theorem assign_invoke_union (self : RunnableAssign.t)
    (d : gmap string pyobj) (config : RunnableConfig) (m : gmap string pyobj) :
  RunnableParallel.invoke (RunnableAssign.mapper self) (PDict d) config
    = Ok (PDict m) →
  RunnableAssign.invoke self (PDict d) config = Ok (PDict (m ∪ d))
  ∧ (∀ k v, m !! k = Some v → (m ∪ d) !! k = Some v)
  ∧ (∀ k, m !! k = None → (m ∪ d) !! k = d !! k)
  ∧ dom (m ∪ d) = dom d ∪ dom m.
Proof.
  intros Hm. repeat split.
  - by apply assign_invoke_ok.
  - intros k v Hk. by apply lookup_union_Some_l.
  - intros k Hk. by apply lookup_union_r.
  - rewrite dom_union_L. apply (comm_L (∪)).
Qed.

(** The example of the spec: input [{a: 1, b: 2}], sub-tasks [b] returning
    99 and [c] returning [a + b]. *)
Lemma assign_invoke_union_example :
  RunnableAssign.invoke assign_b_c (PDict record_a1_b2) None
  = Ok (PDict {[ "a" := PInt 1; "b" := PInt 99; "c" := PInt 3 ]}).
Proof.
  exact (proj1 (assign_invoke_union assign_b_c record_a1_b2 None
                  {[ "b" := PInt 99; "c" := PInt 3 ]} eq_refl)).
Defined.

(** ** The passthrough branch *)

Lemma passthrough_chunk_None (mapper_keys : gset string) (d : gmap string pyobj) :
  passthrough_chunk mapper_keys d = None ↔ ∀ k, k ∉ mapper_keys → d !! k = None.
Proof.
  unfold passthrough_chunk. case_decide as Hf; split; try done.
  - intros _ k Hk. apply (f_equal (.!! k)) in Hf.
    rewrite filter_chunk_lookup, lookup_empty in Hf. by case_decide.
  - intros Hd. exfalso. apply Hf, map_eq. intros k.
    rewrite filter_chunk_lookup, lookup_empty. case_decide; [done|]. by apply Hd.
Qed.

Lemma passthrough_chunk_Some (mapper_keys : gset string) (d : gmap string pyobj)
    (c : pyobj) :
  passthrough_chunk mapper_keys d = Some c →
  ∃ f, c = PDict f ∧ f ≠ ∅
       ∧ ∀ k, f !! k = if decide (k ∈ mapper_keys) then None else d !! k.
Proof.
  unfold passthrough_chunk. case_decide as Hf; [done|]. intros [= <-].
  eexists. split; [done|]. split; [done|]. apply filter_chunk_lookup.
Qed.

(** C4: for dict chunks, the passthrough part of [transform] is, in order,
    what is left of each chunk once the mapper's keys are removed, the
    chunks left empty being dropped; every chunk it yields is non-empty, has
    none of the mapper's keys and has the other keys with their values; the
    generator yields it in the move that consumes the chunk.  For mapper
    keys [b], [c] and the chunks [{a: 1}], [{b: 2}], [{}] the passthrough
    output is the single chunk [{a: 1}]. *)
Theorem passthrough_filter :
  (∀ self ds config,
     RunnableAssign.transform self (PDict <$> ds) config
     = stream_seq
         (stream_of_list
            (omap (passthrough_chunk
                     (RunnableParallel.steps_keys (RunnableAssign.mapper self))) ds))
         (RunnableAssign.yield_map_output
            (py_next (RunnableParallel.transform (RunnableAssign.mapper self)
                        (PDict <$> ds) config) PNone)))
  ∧ (∀ mapper_keys d,
       passthrough_chunk mapper_keys d = None
       ↔ ∀ k, k ∉ mapper_keys → d !! k = None)
  ∧ (∀ mapper_keys d c,
       passthrough_chunk mapper_keys d = Some c →
       ∃ f, c = PDict f ∧ f ≠ ∅
            ∧ ∀ k, f !! k = if decide (k ∈ mapper_keys) then None else d !! k)
  ∧ (∀ self chunk rest f o,
       AssignRun.step_main self (AssignRun.MkState
                                   (AssignRun.Draining (PDict chunk :: rest)) f o)
       = AssignRun.MkState (AssignRun.Draining rest) f
           (o ++ option_list (passthrough_chunk (AssignRun.mapper_keys self) chunk)))
  ∧ RunnableAssign.drain_passthrough {[ "b"; "c" ]}
      [PDict record_a1; PDict record_b2; PDict ∅]
    = stream_of_list [PDict record_a1]
  ∧ omap (passthrough_chunk
            (RunnableParallel.steps_keys (RunnableAssign.mapper assign_b_c)))
         [record_a1; record_b2; ∅]
    = [PDict record_a1].
Proof.
  split; [|split; [|split; [|split; [|split]]]].
  - intros self ds config. by rewrite transform_unfold, drain_passthrough_dicts.
  - apply passthrough_chunk_None.
  - apply passthrough_chunk_Some.
  - intros self chunk rest f o. unfold AssignRun.step_main, passthrough_chunk.
    simpl. case_decide; simpl; [|done]. by rewrite app_nil_r.
  - reflexivity.
  - reflexivity.
Qed.

(** The three-chunk example of the spec in full: the passthrough chunk
    [{a: 1}] comes first, and the map output after it merges to
    [{b: 99, c: 3}]. *)
Lemma transform_three_chunks_example :
  let input := [PDict record_a1; PDict record_b2; PDict ∅] in
  let map_output :=
    RunnableParallel.transform (RunnableAssign.mapper assign_b_c) input None in
  RunnableAssign.transform assign_b_c input None
    = stream_yield (PDict record_a1) map_output
  ∧ consume map_output = Some (Ok (PDict {[ "b" := PInt 99; "c" := PInt 3 ]})).
Proof. split; reflexivity. Qed.

(** ** Items that are not dicts *)

(** C5, as the code has it: on an item that is not a dict, [invoke] and
    [ainvoke] raise the assertion error and return nothing; [transform] and
    [atransform] raise it when the passthrough loop reaches the first such
    chunk, after the filtered chunks of the dicts before it have been
    yielded, and yield nothing more: no map chunk reaches the caller. *)
Theorem type_mismatch_fails (self : RunnableAssign.t)
    (ds : list (gmap string pyobj)) (x : pyobj) (rest : list pyobj)
    (config : RunnableConfig) :
  isinstance_dict x = false →
  RunnableAssign.invoke self x config = Raise RunnableAssign.must_be_dict
  ∧ RunnableAssign.ainvoke self x config = Raise RunnableAssign.must_be_dict
  ∧ RunnableAssign.transform self ((PDict <$> ds) ++ x :: rest) config
    = MkStream
        (omap (passthrough_chunk
                 (RunnableParallel.steps_keys (RunnableAssign.mapper self))) ds)
        (Some RunnableAssign.must_be_dict)
  ∧ RunnableAssign.atransform self ((PDict <$> ds) ++ x :: rest) config
    = RunnableAssign.transform self ((PDict <$> ds) ++ x :: rest) config
  ∧ RunnableAssign.transform self (x :: rest) config
    = MkStream [] (Some RunnableAssign.must_be_dict).
Proof.
  intros Hx.
  assert (∀ ds', RunnableAssign.transform self ((PDict <$> ds') ++ x :: rest) config
    = MkStream
        (omap (passthrough_chunk
                 (RunnableParallel.steps_keys (RunnableAssign.mapper self))) ds')
        (Some RunnableAssign.must_be_dict)) as Ht.
  { intros ds'. rewrite transform_unfold, drain_passthrough_bad by done. done. }
  split; [by destruct x|]. split; [by destruct x|].
  split; [apply Ht|]. split; [done|]. apply (Ht []).
Qed.

(** Any item that is not a dict, wherever it stands in the input, makes
    [transform] end with the assertion error. *)
Lemma transform_non_dict_fails (self : RunnableAssign.t) (input : list pyobj)
    (config : RunnableConfig) :
  Exists (λ x, isinstance_dict x = false) input →
  failure (RunnableAssign.transform self input config)
  = Some RunnableAssign.must_be_dict.
Proof.
  intros Hex.
  destruct (split_at_first_non_dict input) as [[ds ->]|(ds & x & rest & -> & Hx)].
  - apply Exists_exists in Hex as (x & Hin & Hx).
    apply list_elem_of_fmap in Hin as (d & -> & _). done.
  - by rewrite transform_unfold, drain_passthrough_bad.
Qed.

Lemma type_mismatch_fails_example :
  RunnableAssign.invoke assign_b_c (PInt 5) None
    = Raise RunnableAssign.must_be_dict
  ∧ RunnableAssign.transform assign_b_c [PDict record_b2; PInt 5] None
    = MkStream [] (Some RunnableAssign.must_be_dict).
Proof.
  destruct (type_mismatch_fails assign_b_c [record_b2] (PInt 5) [] None eq_refl)
    as (Hi & _ & Ht & _).
  split; [exact Hi | exact Ht].
Defined.

(** C5, as the claim has it, fails: a bare integer after the chunk [{a: 1}]
    makes the call fail, but the chunk [{a: 1}] has been yielded before. *)
Lemma type_mismatch_after_output :
  RunnableAssign.transform assign_b_c [PDict record_a1; PInt 5] None
  = MkStream [PDict record_a1] (Some RunnableAssign.must_be_dict).
Proof. reflexivity. Qed.

(** ** A map branch without chunks *)

(** C8: when the mapper's output stream ends without a chunk, [transform]
    and [atransform] yield the passthrough chunks and then one more item,
    [None]. *)
Theorem empty_map_output_yields_none (self : RunnableAssign.t)
    (ds : list (gmap string pyobj)) (config : RunnableConfig) :
  RunnableParallel.transform (RunnableAssign.mapper self) (PDict <$> ds) config
    = stream_stop →
  RunnableAssign.transform self (PDict <$> ds) config
    = stream_of_list
        (omap (passthrough_chunk
                 (RunnableParallel.steps_keys (RunnableAssign.mapper self))) ds
         ++ [PNone])
  ∧ RunnableAssign.atransform self (PDict <$> ds) config
    = RunnableAssign.transform self (PDict <$> ds) config.
Proof.
  intros Hm. split; [|done].
  rewrite transform_unfold, drain_passthrough_dicts, Hm.
  reflexivity.
Qed.

Lemma empty_map_output_yields_none_example :
  RunnableAssign.transform assign_nothing [PDict record_a1; PDict record_b2] None
  = stream_of_list [PDict record_a1; PDict record_b2; PNone].
Proof.
  exact (proj1 (empty_map_output_yields_none assign_nothing
                  [record_a1; record_b2] None eq_refl)).
Defined.

(** ** Streaming against single-shot *)

Lemma add_chunks_onto (cs : list pyobj) (a b m : gmap string pyobj) :
  add_chunks (PDict b) cs = Ok (PDict m) →
  add_chunks (PDict (b ∪ a)) cs = Ok (PDict (m ∪ a)).
Proof.
  revert b. induction cs as [|c cs IH]; intros b; simpl.
  - by intros [= ->].
  - destruct c as [| | |c]; try done. simpl. unfold dict_update.
    intros Hm. apply IH in Hm. by rewrite (assoc_L (∪)).
Qed.

Lemma add_chunks_cons (c : pyobj) (cs : list pyobj) (a m : gmap string pyobj) :
  add_chunks c cs = Ok (PDict m) →
  add_chunks (PDict a) (c :: cs) = Ok (PDict (m ∪ a)).
Proof.
  intros Hm. destruct c as [| | |c].
  1-3: by destruct cs.
  simpl. unfold dict_update. by apply add_chunks_onto.
Qed.

(** The law holds for [RunnableAssign] whenever the map branch yields at
    least one chunk: if the mapper obeys the law itself and produces exactly
    the keys of its steps, then the chunks of [stream] merge to the result
    of [invoke]. *)
Lemma assign_stream_invoke_law (self : RunnableAssign.t)
    (d : gmap string pyobj) (config : RunnableConfig) (m : gmap string pyobj) :
  RunnableParallel.invoke (RunnableAssign.mapper self) (PDict d) config
    = Ok (PDict m) →
  consume (RunnableParallel.transform (RunnableAssign.mapper self) [PDict d] config)
    = Some (Ok (PDict m)) →
  dom m = RunnableParallel.steps_keys (RunnableAssign.mapper self) →
  consume (RunnableAssign.stream self (PDict d) config)
  = Some (RunnableAssign.invoke self (PDict d) config).
Proof.
  intros Hinv Hstr Hdom.
  rewrite (assign_invoke_ok self d config m Hinv).
  unfold RunnableAssign.stream. rewrite transform_unfold.
  destruct (RunnableParallel.transform _ _ _) as [[|c cs] [e|]];
    unfold consume in Hstr; simpl in Hstr; try done.
  injection Hstr as Hstr.
  assert (m ∪ RunnableAssign.filter_chunk
                 (RunnableParallel.steps_keys (RunnableAssign.mapper self)) d
          = m ∪ d) as Hu.
  { apply map_eq. intros k. rewrite !lookup_union, filter_chunk_lookup.
    destruct (m !! k) as [v|] eqn:Hk; simpl.
    - by destruct (if decide _ then _ else _), (d !! k).
    - case_decide as Hin; [|done].
      rewrite <- Hdom in Hin. apply elem_of_dom in Hin as [v Hv]. congruence. }
  cbn [RunnableAssign.drain_passthrough]. case_decide as Hf.
  - rewrite stream_seq_stop_l. unfold consume. simpl. rewrite Hstr.
    by rewrite <- Hu, Hf, (right_id_L ∅ (∪)).
  - rewrite stream_seq_yield, stream_seq_stop_l. unfold consume. simpl.
    change (Some (add_chunks (PDict (RunnableAssign.filter_chunk
              (RunnableParallel.steps_keys (RunnableAssign.mapper self)) d)) (c :: cs))
            = Some (Ok (PDict (m ∪ d)))).
    by rewrite (add_chunks_cons _ _ _ _ Hstr), Hu.
Qed.

(** The law for a bare function wrapped as a unit. *)
Lemma lambda_stream_invoke_law (f : pyobj → result pyobj) (x : pyobj)
    (config : RunnableConfig) :
  consume (r_transform (RunnableLambda f) [x] config)
  = Some (r_invoke (RunnableLambda f) x config).
Proof. simpl. by destruct (f x). Qed.

(** The law for the identity unit. *)
Lemma passthrough_stream_invoke_law (x : pyobj) (config : RunnableConfig) :
  consume (RunnablePassthrough.stream x config)
  = Some (RunnablePassthrough.invoke x config).
Proof. reflexivity. Qed.

(** The law on the example of the spec. *)
Lemma assign_stream_invoke_law_example :
  consume (RunnableAssign.stream assign_b_c (PDict record_a1_b2) None)
  = Some (RunnableAssign.invoke assign_b_c (PDict record_a1_b2) None).
Proof. by apply (assign_stream_invoke_law _ _ _ {[ "b" := PInt 99; "c" := PInt 3 ]}). Qed.

(** C1 fails on the code: for [RunnablePassthrough.assign()] without
    sub-tasks and the input [{a: 1}], [invoke] returns [{a: 1}], while
    [stream] yields [{a: 1}] and then [None], and these two chunks do not
    merge to a record. *)
Theorem stream_invoke_law_broken_by_none :
  RunnableAssign.invoke assign_nothing (PDict record_a1) None
    = Ok (PDict record_a1)
  ∧ RunnableAssign.stream assign_nothing (PDict record_a1) None
    = stream_of_list [PDict record_a1; PNone]
  ∧ consume (RunnableAssign.stream assign_nothing (PDict record_a1) None)
    = Some (Raise (TypeError "unsupported operand type(s) for +")).
Proof. repeat split. Qed.

(** ** Order of the two branches *)

(** The chunks the map branch contributes: those of the mapper's output
    stream, in the order it produced them, or the default of [next] when the
    stream has none. *)
Lemma map_branch_chunks (map_output : Stream) (c : pyobj) (cs : list pyobj) :
  chunks map_output = c :: cs →
  chunks (RunnableAssign.yield_map_output (py_next map_output PNone)) = c :: cs.
Proof. destruct map_output as [l f]. simpl. by intros ->. Qed.

Lemma prefix_of_app_split {A} (l l1 l2 : list A) :
  l `prefix_of` l1 ++ l2 →
  ∃ p q, l = p ++ q ∧ p `prefix_of` l1 ∧ q `prefix_of` l2 ∧ (q ≠ [] → p = l1).
Proof.
  revert l. induction l1 as [|x l1 IH]; intros l Hl; simpl in *.
  - exists [], l. by repeat split; [apply prefix_nil|..].
  - destruct l as [|y l].
    + exists [], []. repeat split; try apply prefix_nil. done.
    + apply prefix_cons_inv_1 in Hl as Hxy. subst y.
      apply prefix_cons_inv_2 in Hl.
      destruct (IH _ Hl) as (p & q & -> & Hp & Hq & Hpq).
      exists (x :: p), q. repeat split; [by apply prefix_cons|done|].
      intros Hne. by rewrite Hpq.
Qed.

(** C2: at every point of every run of [transform], whatever the instant
    at which the executor completes the fetch of the first map chunk, what
    the caller has received is a prefix of the passthrough chunks followed
    by a prefix of the map-branch chunks, and a map-branch chunk has been
    received only after all passthrough chunks; each branch keeps its own
    order.  Every run can be continued to its end, and a run that has ended
    has yielded the stream denoted by [transform], which is also that of
    [atransform]. *)
Theorem passthrough_before_map (self : RunnableAssign.t) (input : list pyobj)
    (config : RunnableConfig) (sched : list AssignRun.thread) :
  let keys := RunnableParallel.steps_keys (RunnableAssign.mapper self) in
  let map_output :=
    RunnableParallel.transform (RunnableAssign.mapper self) input config in
  let passthrough := chunks (RunnableAssign.drain_passthrough keys input) in
  let map_branch :=
    chunks (RunnableAssign.yield_map_output (py_next map_output PNone)) in
  let s := AssignRun.run self input config sched (AssignRun.init input) in
  (∃ ps ms, AssignRun.out s = ps ++ ms
            ∧ ps `prefix_of` passthrough
            ∧ ms `prefix_of` map_branch
            ∧ (ms ≠ [] → ps = passthrough))
  ∧ (∀ e, AssignRun.ended s = Some e →
          MkStream (AssignRun.out s) e = RunnableAssign.transform self input config)
  ∧ (∃ more e, AssignRun.ended
                 (AssignRun.run self input config (sched ++ more)
                    (AssignRun.init input)) = Some e)
  ∧ (∃ ms, chunks (RunnableAssign.transform self input config) = passthrough ++ ms
           ∧ ms `prefix_of` map_branch)
  ∧ (∀ c cs, chunks map_output = c :: cs → map_branch = c :: cs)
  ∧ RunnableAssign.atransform self input config
    = RunnableAssign.transform self input config.
Proof.
  intros keys map_output passthrough map_branch s.
  assert (chunks (RunnableAssign.transform self input config)
          = passthrough
            ++ (if failure (RunnableAssign.drain_passthrough keys input) is None
                then map_branch else [])) as Hchunks.
  { rewrite transform_unfold. apply stream_seq_chunks. }
  split; [|split; [|split; [|split; [|split]]]].
  - pose proof (run_out_prefix self input config sched) as Hp. fold s in Hp.
    rewrite Hchunks in Hp.
    destruct (prefix_of_app_split _ _ _ Hp) as (ps & ms & Hs & Hps & Hms & Hlast).
    exists ps, ms. repeat split; try done.
    destruct (failure _); [|done].
    apply prefix_nil_inv in Hms. subst ms. apply prefix_nil.
  - intros e. apply run_ended.
  - destruct (run_completes self input config sched) as [e He].
    eexists _, e. exact He.
  - rewrite Hchunks. eexists. split; [done|].
    destruct (failure _); [apply prefix_nil|done].
  - intros c cs. apply map_branch_chunks.
  - reflexivity.
Qed.

(** Two runs on the three-chunk example: in the first the executor
    completes the fetch before the generator starts, in the second only
    after the generator has drained the passthrough branch and waits.  The
    caller receives the same sequence. *)
Lemma runs_map_fast_and_slow :
  let input := [PDict record_a1; PDict record_b2; PDict ∅] in
  let fast := AssignRun.Background :: replicate 7 AssignRun.Main in
  let slow := replicate 5 AssignRun.Main ++ AssignRun.Background
              :: replicate 4 AssignRun.Main in
  let s1 := AssignRun.run assign_b_c input None fast (AssignRun.init input) in
  let s2 := AssignRun.run assign_b_c input None slow (AssignRun.init input) in
  AssignRun.ended s1 = Some None
  ∧ AssignRun.ended s2 = Some None
  ∧ AssignRun.out s1 = AssignRun.out s2
  ∧ AssignRun.out s1
    = [PDict record_a1; PDict {[ "c" := PInt 3 ]}; PDict {[ "b" := PInt 99 ]}].
Proof. repeat split. Qed.

(** ** The mapper built from named sub-tasks *)

Lemma invoke_steps_lookup (steps : list (string * Runnable)) (x : pyobj)
    (config : RunnableConfig) (out : gmap string pyobj) :
  NoDup steps.*1 →
  RunnableParallel.invoke_steps steps x config = Ok out →
  ∀ name v, out !! name = Some v
            ↔ ∃ task, (name, task) ∈ steps ∧ r_invoke task x config = Ok v.
Proof.
  revert out. induction steps as [|[n t] steps IH]; intros out Hnd; simpl.
  - intros [= <-] name v. rewrite lookup_empty. split; [done|].
    intros (task & Hin & _). by apply elem_of_nil in Hin.
  - apply NoDup_cons in Hnd as [Hn Hnd].
    destruct (r_invoke t x config) as [v0|] eqn:Ht; simpl; [|done].
    destruct (RunnableParallel.invoke_steps steps x config) as [out0|] eqn:Hs;
      simpl; [|done].
    intros [= <-] name v. specialize (IH out0 Hnd eq_refl name v).
    destruct (decide (n = name)) as [->|Hne].
    + rewrite lookup_insert_eq. split.
      * intros [= <-]. exists t. split; [left|done].
      * intros (task & Hin & Hv). apply elem_of_cons in Hin as [[= <-]|Hin].
        -- congruence.
        -- exfalso. apply Hn. apply list_elem_of_fmap. by exists (name, task).
    + rewrite lookup_insert_ne by done. rewrite IH. split.
      * intros (task & Hin & Hv). exists task. split; [by right|done].
      * intros (task & Hin & Hv). apply elem_of_cons in Hin as [[= <- <-]|Hin]; [done|].
        by exists task.
Qed.

(** The record a mapper built from named sub-tasks returns has one key for
    every sub-task, bound to the result of that sub-task on the input. *)
Lemma of_steps_invoke (steps : gmap string Runnable) (x : pyobj)
    (config : RunnableConfig) (r : pyobj) :
  RunnableParallel.invoke (RunnableParallel.of_steps steps) x config = Ok r →
  ∃ m, r = PDict m
       ∧ dom m = RunnableParallel.steps_keys (RunnableParallel.of_steps steps)
       ∧ ∀ name v, m !! name = Some v
                   ↔ ∃ task, steps !! name = Some task ∧ r_invoke task x config = Ok v.
Proof.
  simpl.
  destruct (RunnableParallel.invoke_steps _ _ _) as [m|] eqn:Hm; simpl; [|done].
  intros [= <-]. exists m. split; [done|].
  pose proof (invoke_steps_lookup _ _ _ _ (NoDup_fst_map_to_list steps) Hm) as Hl.
  assert (∀ name v, m !! name = Some v
            ↔ ∃ task, steps !! name = Some task ∧ r_invoke task x config = Ok v) as Hl'.
  { intros name v. rewrite Hl. by setoid_rewrite elem_of_map_to_list. }
  split; [|done].
  apply set_eq. intros name. rewrite !elem_of_dom. split.
  - intros [v Hv]. apply Hl' in Hv as (task & Ht & _). by exists task.
  - intros [task Ht].
    (* every sub-task returned, since the whole did *)
    assert (∀ l out, RunnableParallel.invoke_steps l x config = Ok out →
              ∀ n t, (n, t) ∈ l → ∃ v, r_invoke t x config = Ok v) as Hall.
    { clear. induction l as [|[n0 t0] l IH]; intros out Hout n t Hin.
      - by apply elem_of_nil in Hin.
      - simpl in Hout.
        destruct (r_invoke t0 x config) as [v0|] eqn:Ht0; simpl in Hout; [|done].
        destruct (RunnableParallel.invoke_steps l x config) as [out0|] eqn:Hs;
          simpl in Hout; [|done].
        apply elem_of_cons in Hin as [[= -> ->]|Hin]; [by exists v0|].
        by apply (IH out0 eq_refl n t). }
    destruct (Hall _ _ Hm name task) as [v Hv]; [by apply elem_of_map_to_list|].
    exists v. apply Hl'. by exists task.
Qed.

(** [invoke] of [RunnablePassthrough.assign] over [kwargs], when it returns:
    every sub-task has returned, a key of [kwargs] is bound to the result of
    its sub-task on the input, and every other key is bound as in the
    input. *)
Lemma assign_invoke_of_steps (kwargs : gmap string Runnable)
    (d : gmap string pyobj) (config : RunnableConfig) (r : pyobj) :
  RunnableAssign.invoke (assign kwargs) (PDict d) config = Ok r →
  ∃ res, r = PDict res
         ∧ (∀ name task, kwargs !! name = Some task →
              ∃ v, r_invoke task (PDict d) config = Ok v ∧ res !! name = Some v)
         ∧ (∀ k, kwargs !! k = None → res !! k = d !! k).
Proof.
  intros Hr.
  destruct (RunnableParallel.invoke (RunnableParallel.of_steps kwargs) (PDict d) config)
    as [r0|e] eqn:Hm.
  2: { unfold RunnableAssign.invoke, assign in Hr. cbn [RunnableAssign.mapper] in Hr.
       by rewrite Hm in Hr. }
  destruct (of_steps_invoke kwargs (PDict d) config r0 Hm) as (m & -> & Hdom & Hlook).
  rewrite (assign_invoke_ok (assign kwargs) d config m Hm) in Hr.
  injection Hr as <-. exists (m ∪ d). split; [done|]. split.
  - intros name task Hk.
    assert (name ∈ dom m) as Hin.
    { rewrite Hdom. simpl. apply elem_of_dom. by eexists. }
    apply elem_of_dom in Hin as [v Hv].
    destruct (proj1 (Hlook name v) Hv) as (task' & Hk' & Hv').
    assert (task' = task) as -> by congruence.
    exists v. split; [done|]. by apply lookup_union_Some_l.
  - intros k Hk. apply lookup_union_r.
    apply not_elem_of_dom. rewrite Hdom. simpl. by apply not_elem_of_dom.
Qed.

(** ** The run mapper of chains *)

(** C7: when the run has outputs, the run type [chain] and both configured
    keys, [map] returns exactly the record of the input and the prediction;
    when the input key is missing from the inputs, or the prediction key
    from the outputs, [map] raises a [ValueError] and returns nothing, and
    the call through [__call__] ends the same way. *)
Theorem chain_run_mapper_map (self : ChainStringRunMapper.t) (run : Run.t) :
  (∀ o i p,
     Run.outputs run = Some o →
     Run.run_type run = "chain" →
     Run.inputs run !! ChainStringRunMapper.input_key self = Some i →
     o !! ChainStringRunMapper.prediction_key self = Some p →
     ChainStringRunMapper.map self run
     = Ok (PDict {[ "input" := i; "prediction" := p ]}))
  ∧ (Run.inputs run !! ChainStringRunMapper.input_key self = None
     ∨ Run.outputs run ≫= (.!! ChainStringRunMapper.prediction_key self) = None →
     ∃ msg, ChainStringRunMapper.map self run = Raise (ValueError msg))
  ∧ (not_outputs (Run.outputs run) = false →
     Run.run_type run = "chain" →
     Run.inputs run !! ChainStringRunMapper.input_key self = None →
     ChainStringRunMapper.map self run
     = Raise (ValueError ("Run " +:+ Run.id run +:+ " does not have input key "
                          +:+ ChainStringRunMapper.input_key self +:+ ".")))
  ∧ (∀ i, not_outputs (Run.outputs run) = false →
     Run.run_type run = "chain" →
     Run.inputs run !! ChainStringRunMapper.input_key self = Some i →
     Run.outputs run ≫= (.!! ChainStringRunMapper.prediction_key self) = None →
     ChainStringRunMapper.map self run
     = Raise (ValueError ("Run " +:+ Run.id run +:+ " does not have prediction key "
                          +:+ ChainStringRunMapper.prediction_key self +:+ ".")))
  ∧ ChainStringRunMapper.__call__ self run = ChainStringRunMapper.map self run.
Proof.
  split; [|split; [|split; [|split]]].
  - intros o i p Ho Ht Hi Hp. unfold ChainStringRunMapper.map.
    rewrite Ho, Ht, Hi. simpl. rewrite Hp.
    rewrite bool_decide_eq_false_2; [|intros ->; by rewrite lookup_empty in Hp].
    reflexivity.
  - intros Hmiss. unfold ChainStringRunMapper.map.
    destruct (not_outputs _); [by eexists|].
    destruct (negb _); [by eexists|].
    destruct (Run.inputs run !! _) as [i|]; [|by eexists].
    destruct (Run.outputs run ≫= _) as [p|]; [|by eexists].
    by destruct Hmiss.
  - intros Ho Ht Hi. unfold ChainStringRunMapper.map. by rewrite Ho, Ht, Hi.
  - intros i Ho Ht Hi Hp. unfold ChainStringRunMapper.map.
    by rewrite Ho, Ht, Hi, Hp.
  - unfold ChainStringRunMapper.__call__, ChainStringRunMapper.map.
    by destruct (not_outputs _).
Qed.

(** A chain run with the input [question] and the output [answer]. *)
Lemma chain_run_mapper_map_example :
  ChainStringRunMapper.map
    (ChainStringRunMapper.Mk "question" "answer")
    (Run.Mk "r1" "chain" {[ "question" := PStr "2+2?" ]}
       (Some {[ "answer" := PStr "4" ]}) None)
  = Ok (PDict {[ "input" := PStr "2+2?"; "prediction" := PStr "4" ]}).
Proof.
  exact (proj1 (chain_run_mapper_map
                  (ChainStringRunMapper.Mk "question" "answer")
                  (Run.Mk "r1" "chain" {[ "question" := PStr "2+2?" ]}
                     (Some {[ "answer" := PStr "4" ]}) None))
               _ _ _ eq_refl eq_refl eq_refl eq_refl).
Defined.

(** ** The caller's record *)

Section HeapFacts.
Import Heap.





(** On that store the call returns a new record at address 3, holding
    [{a: 1, b: 99}]. *)
Lemma heap_invoke_example :
  let σ := {[ 1%positive := {[ "a" := VInt 1; "b" := VInt 2 ]} ]} in
  (invoke mapper_b99 σ (VRef 1)).1 = Ok (VRef 3)
  ∧ (invoke mapper_b99 σ (VRef 1)).2 !! 3%positive
    = Some {[ "a" := VInt 1; "b" := VInt 99 ]}.
Proof. split; reflexivity. Qed.

(** A mapper that is handed the record itself and deletes a key from it
    changes the caller's record; [invoke] adds no write of its own, and
    merges from the contents it read before the mapper ran. *)
Lemma heap_invoke_mutating_mapper :
  let σ := {[ 1%positive := {[ "a" := VInt 1; "b" := VInt 2 ]} ]} in
  (invoke mapper_pops_a σ (VRef 1)).2 !! 1%positive = Some {[ "b" := VInt 2 ]}
  ∧ (mapper_pops_a σ (VRef 1)).2 !! 1%positive = Some {[ "b" := VInt 2 ]}
  ∧ (invoke mapper_pops_a σ (VRef 1)).1 = Ok (VRef 3)
  ∧ (invoke mapper_pops_a σ (VRef 1)).2 !! 3%positive
    = Some {[ "a" := VInt 1; "b" := VInt 99 ]}.
Proof. repeat split. Qed.


End HeapFacts.

(** ** The embedding distance chain *)

Section EmbeddingFacts.
Context `{Numpy}.
Import PairwiseEmbeddingStringEvalChain.

(** C10: the score record returned by [evaluate_string_pairs] and by
    [aevaluate_string_pairs] is the same for any two calls that differ
    only in [input] and [reference]; it is computed from the embedding of
    the two predictions alone. *)
Theorem evaluate_string_pairs_ignores_input_reference (self : t)
    (prediction prediction_b : string)
    (input input' reference reference' : option string)
    (callbacks : RunnableConfig) :
  evaluate_string_pairs self prediction prediction_b input reference callbacks
  = evaluate_string_pairs self prediction prediction_b input' reference' callbacks
  ∧ aevaluate_string_pairs self prediction prediction_b input reference callbacks
    = aevaluate_string_pairs self prediction prediction_b input' reference' callbacks
  ∧ evaluate_string_pairs self prediction prediction_b input reference callbacks
    = (embedded ← embed_documents (embeddings self) [prediction; prediction_b];
       score ← _compute_score self (np_array embedded);
       Ok {[ "score" := score ]})
  ∧ aevaluate_string_pairs self prediction prediction_b input reference callbacks
    = (embedded ← aembed_documents (embeddings self) [prediction; prediction_b];
       score ← _compute_score self (np_array embedded);
       Ok {[ "score" := score ]}).
Proof. repeat split. Qed.

End EmbeddingFacts.

(** The chain on an example: the score is the expression over the
    embeddings of the two predictions, whatever [input] and [reference]
    are. *)
Lemma evaluate_string_pairs_example :
  @PairwiseEmbeddingStringEvalChain.evaluate_string_pairs numpy_terms
    euclidean_chain "abc" "de" (Some "question") None None
  = Ok {[ "score" :=
            NpItem (NpNorm (NpSub
              (NpReshapeRow (NpGetItem
                 (NpArray [[NpLit 3; NpLit 1]; [NpLit 2; NpLit 1]]) 0))
              (NpReshapeRow (NpGetItem
                 (NpArray [[NpLit 3; NpLit 1]; [NpLit 2; NpLit 1]]) 1)))) ]}.
Proof. reflexivity. Qed.

(** * More of the evaluator code *)

(** ** The run mapper of tools *)

(** X1: [ToolStringRunMapper.map] returns the record of
    [run.inputs["input"]] and [run.outputs["output"]] for a run of any type
    that has both; without outputs it raises a [ValueError]; a missing
    key is a [KeyError], and the input key is looked up first. *)
Theorem tool_run_mapper_map (run : Run.t) :
  (∀ o i p,
     Run.outputs run = Some o →
     Run.inputs run !! "input" = Some i →
     o !! "output" = Some p →
     ToolStringRunMapper.map run
     = Ok (PDict {[ "input" := i; "prediction" := p ]}))
  ∧ (not_outputs (Run.outputs run) = true →
     ToolStringRunMapper.map run
     = Raise (ValueError ("Run " +:+ Run.id run +:+ " has no outputs to evaluate.")))
  ∧ (not_outputs (Run.outputs run) = false →
     Run.inputs run !! "input" = None →
     ToolStringRunMapper.map run = Raise (KeyError "input"))
  ∧ (∀ i, not_outputs (Run.outputs run) = false →
     Run.inputs run !! "input" = Some i →
     Run.outputs run ≫= (.!! "output") = None →
     ToolStringRunMapper.map run = Raise (KeyError "output")).
Proof.
  unfold ToolStringRunMapper.map, not_outputs, dict_getitem.
  destruct (Run.outputs run) as [o|]; simpl.
  2: { repeat split; try done. }
  split; [|split; [|split]].
  - intros o' i p [= <-] Hi Hp. rewrite Hi. simpl. rewrite Hp. simpl.
    case_decide as Ho; [subst o; by rewrite lookup_empty in Hp|]. reflexivity.
  - intros Ho. apply bool_decide_eq_true in Ho. by case_decide.
  - intros Ho Hi. apply bool_decide_eq_false in Ho. case_decide; [done|].
    by rewrite Hi.
  - intros i Ho Hi Hp. apply bool_decide_eq_false in Ho. case_decide; [done|].
    rewrite Hi. simpl. by rewrite Hp.
Qed.

(** ** The example mapper *)

Lemma returned_reference_inj (v v' : pyobj) :
  Returned (PDict {[ "reference" := v ]}) = Returned (PDict {[ "reference" := v' ]}) →
  v = v'.
Proof.
  intros H.
  apply (f_equal (λ x, match x with
                       | Returned (PDict d) => d !! "reference"
                       | _ => None
                       end)) in H.
  rewrite !lookup_singleton_eq in H. congruence.
Qed.

(** A non-empty map with at most one entry is a singleton, and the list
    of its values is that one value. *)
Lemma map_at_most_one (o : gmap string pyobj) :
  o ≠ ∅ → ¬ (1 < size o)%nat →
  ∃ k v, o = {[ k := v ]} ∧ (map_to_list o).*2 = [v].
Proof.
  intros Hne Hsize.
  rewrite <- (list_to_map_to_list o) in Hne.
  unfold size, map_size in Hsize.
  assert (length (map_to_list o) = size o) as Hlen by apply length_map_to_list.
  destruct (map_to_list o) as [|[k v] [|kv l]] eqn:Hl.
  - done.
  - exists k, v. split; [|done].
    rewrite <- (list_to_map_to_list o), Hl. reflexivity.
  - simpl in Hlen. unfold size, map_size in Hlen. lia.
Qed.

(** X2: with a reference key, [StringExampleMapper.map] returns the record
    of the output under that key exactly when the example has it, and
    raises a [ValueError] when the example has no outputs or lacks the
    key. *)
Theorem example_mapper_map_with_key (key : string) (example : Example.t) :
  (∀ v, StringExampleMapper.map (StringExampleMapper.Mk (Some key)) example
        = Returned (PDict {[ "reference" := v ]})
        ↔ ∃ o, Example.outputs example = Some o ∧ o !! key = Some v)
  ∧ (Example.outputs example ≫= (.!! key) = None →
     ∃ msg, StringExampleMapper.map (StringExampleMapper.Mk (Some key)) example
            = Raised (Exn (ValueError msg))).
Proof.
  unfold StringExampleMapper.map. simpl.
  destruct (Example.outputs example) as [o|]; simpl.
  2: { split; [|by eexists]. intros v. split; [done|]. by intros (o & ? & _). }
  case_decide as Ho.
  - subst o. split; [|by eexists].
    intros v. split; [done|]. intros (o & [= <-] & Hk). by rewrite lookup_empty in Hk.
  - destruct (o !! key) as [v0|] eqn:Hk.
    + split; [|done]. intros v. split.
      * intros H. apply returned_reference_inj in H. subst. by exists o.
      * intros (o' & [= <-] & Hk'). congruence.
    + split; [|by eexists]. intros v. split; [done|].
      intros (o' & [= <-] & Hk'). congruence.
Qed.

(** X3: without a reference key, [StringExampleMapper.map] returns a
    reference exactly when the example has a single output, and then it
    is that output, the same as when the key of that output is given;
    with several outputs it raises a [ValueError].  Whatever the mapper
    and the example, [map] raises nothing but [ValueError]: the index into
    the list of values is never out of range. *)
Theorem example_mapper_map_without_key (example : Example.t) :
  (∀ v, StringExampleMapper.map (StringExampleMapper.Mk None) example
        = Returned (PDict {[ "reference" := v ]})
        ↔ ∃ k, Example.outputs example = Some {[ k := v ]})
  ∧ (∀ k v, Example.outputs example = Some {[ k := v ]} →
       StringExampleMapper.map (StringExampleMapper.Mk None) example
       = StringExampleMapper.map (StringExampleMapper.Mk (Some k)) example)
  ∧ (∀ o, Example.outputs example = Some o → (1 < size o)%nat →
       StringExampleMapper.map (StringExampleMapper.Mk None) example
       = Raised (Exn (ValueError ("Example " +:+ Example.id example
                                  +:+ " has multiple outputs, so you must"
                                  +:+ " specify a reference_key."))))
  ∧ (∀ self e, StringExampleMapper.map self example = Raised e →
       ∃ msg, e = Exn (ValueError msg)).
Proof.
  assert (∀ k (v : pyobj), ({[ k := v ]} : gmap string pyobj) ≠ ∅) as Hsne.
  { intros k v. apply insert_non_empty. }
  assert (∀ k (v : pyobj), ¬ (1 < size ({[ k := v ]} : gmap string pyobj))%nat)
    as Hs1.
  { intros k v. rewrite map_size_singleton. lia. }
  assert (∀ k (v : pyobj),
    Example.outputs example = Some {[ k := v ]} →
    StringExampleMapper.map (StringExampleMapper.Mk None) example
    = Returned (PDict {[ "reference" := v ]})) as Hone.
  { intros k v Ho. unfold StringExampleMapper.map. rewrite Ho. simpl.
    case_decide as He; [by apply Hsne in He|].
    case_decide as Hsz; [by apply Hs1 in Hsz|].
    by rewrite map_to_list_singleton. }
  split; [|split; [|split]].
  - intros v. split; [|intros [k Hk]; by apply (Hone k)].
    unfold StringExampleMapper.map. simpl.
    destruct (Example.outputs example) as [o|]; [|done].
    case_decide as Ho; [done|]. case_decide as Hsz; [done|].
    destruct (map_at_most_one o Ho Hsz) as (k & v' & -> & Hvals).
    rewrite Hvals. simpl. intros H.
    apply returned_reference_inj in H. subst. by exists k.
  - intros k v Ho. rewrite (Hone k v Ho).
    unfold StringExampleMapper.map. rewrite Ho. simpl.
    case_decide as He; [by apply Hsne in He|].
    by rewrite lookup_singleton_eq.
  - intros o Ho Hsz. unfold StringExampleMapper.map. rewrite Ho. simpl.
    case_decide as He; [subst o; rewrite map_size_empty in Hsz; lia|].
    by case_decide.
  - intros self e. unfold StringExampleMapper.map.
    destruct (Example.outputs example) as [o|]; [|intros [= <-]; by eexists].
    case_decide as Ho; [intros [= <-]; by eexists|].
    destruct (StringExampleMapper.reference_key self) as [key|].
    + destruct (o !! key); [done|]. intros [= <-]. by eexists.
    + case_decide as Hsz; [intros [= <-]; by eexists|].
      destruct (map_at_most_one o Ho Hsz) as (k & v' & -> & Hvals).
      by rewrite Hvals.
Qed.

(** ** [ChainStringRunMapper.from_chain] *)

Section FromChainFacts.
Context (py_str : list string → string).
Import ChainStringRunMapperFromChain.

Lemma string_app_assoc (a b c : string) : (a +:+ b) +:+ c = a +:+ (b +:+ c).
Proof.
  induction a as [|x a IH]; [done|].
  change (String x ((a +:+ b) +:+ c) = String x (a +:+ (b +:+ c))). by f_equal.
Qed.

Lemma string_app_inv_head (a b c : string) : a +:+ b = a +:+ c → b = c.
Proof. apply (inj (String.append a)). Qed.

Lemma list_getitem0_returned {A} (l : list A) (x : A) :
  list_getitem0 l = Returned x → ¬ (1 < length l)%nat → l = [x].
Proof.
  destruct l as [|y [|z l]]; simpl; try done.
  - by intros [= ->].
  - intros _ H. lia.
Qed.

Lemma from_chain_sound (model : Chain.t)
    (input_key prediction_key : option string) (m : ChainStringRunMapper.t) :
  from_chain py_str model input_key prediction_key = Returned m →
  ChainStringRunMapper.input_key m ∈ Chain.input_keys model
  ∧ ChainStringRunMapper.prediction_key m ∈ Chain.output_keys model
  ∧ (∀ k, input_key = Some k → ChainStringRunMapper.input_key m = k)
  ∧ (∀ k, prediction_key = Some k → ChainStringRunMapper.prediction_key m = k)
  ∧ (input_key = None → Chain.input_keys model = [ChainStringRunMapper.input_key m])
  ∧ (prediction_key = None
     → Chain.output_keys model = [ChainStringRunMapper.prediction_key m]).
Proof.
  unfold from_chain.
  destruct input_key as [k|], prediction_key as [p|]; simpl;
    repeat (case_decide; simpl); try done;
    repeat match goal with
    | |- context [list_getitem0 ?l] =>
        let H := fresh "Hget" in
        destruct (list_getitem0 l) eqn:H; simpl; [|done];
        apply list_getitem0_returned in H; [|done]
    end;
    intros [= <-]; simpl;
    repeat match goal with H : _ = [_] |- _ => rewrite H end;
    repeat split; try congruence; try done;
    by apply list_elem_of_singleton.
Qed.

(** X4: a mapper returned by [from_chain] reads keys the chain has: a
    given key is kept, and it is one of the chain's; an omitted key is the
    only key of the chain. *)
Theorem from_chain_returns (model : Chain.t)
    (input_key prediction_key : option string) (m : ChainStringRunMapper.t) :
  from_chain py_str model input_key prediction_key = Returned m →
  ChainStringRunMapper.input_key m ∈ Chain.input_keys model
  ∧ ChainStringRunMapper.prediction_key m ∈ Chain.output_keys model
  ∧ (∀ k, input_key = Some k → ChainStringRunMapper.input_key m = k)
  ∧ (∀ k, prediction_key = Some k → ChainStringRunMapper.prediction_key m = k)
  ∧ (input_key = None → Chain.input_keys model = [ChainStringRunMapper.input_key m])
  ∧ (prediction_key = None
     → Chain.output_keys model = [ChainStringRunMapper.prediction_key m]).
Proof. apply from_chain_sound. Qed.

Lemma from_chain_complete (model : Chain.t)
    (input_key prediction_key : option string) :
  resolvable input_key (Chain.input_keys model) →
  resolvable prediction_key (Chain.output_keys model) →
  ∃ m, from_chain py_str model input_key prediction_key = Returned m.
Proof.
  unfold from_chain, resolvable.
  destruct input_key as [k|], prediction_key as [p|]; simpl; intros Hi Hp;
    repeat match goal with
    | H : length ?l = 1%nat |- _ =>
        destruct l as [|? [|? ?]]; simpl in H; try discriminate H; clear H
    end; simpl;
    repeat (case_decide; simpl; try done; try lia); by eexists.
Qed.

(** X5: [from_chain] returns a mapper exactly when both keys can be
    settled.  When both given keys are unknown to the chain, both
    complaints are raised together, one per line.  When the input key is
    omitted and the chain has no input key, the call raises [IndexError],
    whatever the prediction key.  The closing error of the function, about
    a chain without input or output keys, is never raised. *)
Theorem from_chain_raises (model : Chain.t)
    (input_key prediction_key : option string) :
  ((∃ m, from_chain py_str model input_key prediction_key = Returned m)
   ↔ resolvable input_key (Chain.input_keys model)
     ∧ resolvable prediction_key (Chain.output_keys model))
  ∧ (∀ k p, k ∉ Chain.input_keys model → p ∉ Chain.output_keys model →
       from_chain py_str model (Some k) (Some p)
       = Raised (Exn (ValueError
           (("Chain " +:+ py_str (Chain.lc_namespace model)
             +:+ " does not have specified input key " +:+ k +:+ ".")
            +:+ newline
            +:+ ("Chain " +:+ py_str (Chain.lc_namespace model)
                 +:+ " does not have specified prediction_key " +:+ p +:+ ".")))))
  ∧ (Chain.input_keys model = [] →
     from_chain py_str model None prediction_key
     = Raised (IndexError "list index out of range"))
  ∧ (∀ e, from_chain py_str model input_key prediction_key = Raised e →
       (∃ msg, e = IndexError msg)
       ∨ (∃ msg, e = Exn (ValueError msg)
                 ∧ msg ≠ "Chain " +:+ py_str (Chain.lc_namespace model)
                         +:+ " has no input or output keys.")).
Proof.
  split; [|split; [|split]].
  - split.
    + intros [m Hm]. destruct (from_chain_sound _ _ _ _ Hm)
        as (Hi & Hp & Hik & Hpk & Hin & Hpn).
      unfold resolvable. split.
      * destruct input_key as [k|]; [by rewrite <- (Hik k eq_refl)|].
        by rewrite Hin.
      * destruct prediction_key as [p|]; [by rewrite <- (Hpk p eq_refl)|].
        by rewrite Hpn.
    + intros [Hi Hp]. by apply from_chain_complete.
  - intros k p Hk Hp. unfold from_chain. simpl.
    do 2 (case_decide; [done|]; simpl). reflexivity.
  - intros Hnil. unfold from_chain. rewrite Hnil. reflexivity.
  - intros e. unfold from_chain.
    destruct input_key as [k|], prediction_key as [p|]; simpl;
      repeat (case_decide; simpl); try done;
      repeat match goal with
      | |- context [list_getitem0 ?l] =>
          destruct l as [|? ?]; simpl
      end;
      intros [= <-]; try (left; by eexists);
      right; eexists; (split; [done|]);
      intros Heq; rewrite ?string_app_assoc in Heq;
      do 2 apply string_app_inv_head in Heq;
      cbv [String.append] in Heq; discriminate Heq.
Qed.

End FromChainFacts.

(** A chain with the one input [question] and the one output [text]: both
    keys can be omitted. *)
Lemma from_chain_returns_example :
  ChainStringRunMapper.input_key (ChainStringRunMapper.Mk "question" "text")
    ∈ Chain.input_keys llm_chain
  ∧ ChainStringRunMapper.prediction_key (ChainStringRunMapper.Mk "question" "text")
    ∈ Chain.output_keys llm_chain.
Proof.
  destruct (from_chain_returns str_of_list llm_chain None None
              (ChainStringRunMapper.Mk "question" "text") eq_refl)
    as (Hi & Hp & _).
  split; [exact Hi | exact Hp].
Defined.

(** ** The keys the mappers announce *)

(** X6: a record returned by the [map] of the chain mapper or of the tool
    mapper has exactly the keys of [StringRunMapper.output_keys], and a
    record returned by the example mapper exactly the keys of
    [StringExampleMapper.output_keys]. *)
Theorem mappers_return_output_keys :
  (∀ self run r,
     ChainStringRunMapper.map self run = Ok r →
     ∃ d, r = PDict d ∧ dom d = list_to_set StringRunMapper_output_keys)
  ∧ (∀ run r,
       ToolStringRunMapper.map run = Ok r →
       ∃ d, r = PDict d ∧ dom d = list_to_set StringRunMapper_output_keys)
  ∧ (∀ self example r,
       StringExampleMapper.map self example = Returned r →
       ∃ d, r = PDict d ∧ dom d = list_to_set StringExampleMapper.output_keys).
Proof.
  split; [|split].
  - intros self run r. unfold ChainStringRunMapper.map.
    destruct (not_outputs _); [done|]. destruct (negb _); [done|].
    destruct (Run.inputs run !! _) as [i|]; [|done].
    destruct (Run.outputs run ≫= _) as [p|]; [|done].
    intros [= <-]. eexists. split; [done|].
    rewrite !dom_insert_L, dom_empty_L. simpl. set_solver.
  - intros run r. unfold ToolStringRunMapper.map, dict_getitem.
    destruct (Run.outputs run) as [o|]; [|done].
    case_decide; [done|].
    destruct (Run.inputs run !! "input") as [i|]; [|done]. simpl.
    destruct (o !! "output") as [p|]; [|done]. simpl.
    intros [= <-]. eexists. split; [done|].
    rewrite !dom_insert_L, dom_empty_L. simpl. set_solver.
  - intros self example r. unfold StringExampleMapper.map.
    destruct (Example.outputs example) as [o|]; [|done].
    case_decide; [done|].
    destruct (StringExampleMapper.reference_key self) as [key|].
    + destruct (o !! key) as [v|]; [|done].
      intros [= <-]. eexists. split; [done|].
      rewrite dom_singleton_L. simpl. set_solver.
    + case_decide; [done|].
      destruct (list_getitem0 _) as [v|]; [|done]. simpl.
      intros [= <-]. eexists. split; [done|].
      rewrite dom_singleton_L. simpl. set_solver.
Qed.

(** ** [StringRunEvaluatorChain] *)

Lemma example_mapper_call_returned (em : StringExampleMapper.t) (ex : Example.t)
    (r : pyobj) :
  StringExampleMapper.map em ex = Returned r →
  StringExampleMapper.__call__ em ex = Returned r.
Proof.
  unfold StringExampleMapper.__call__, StringExampleMapper.map.
  destruct (Example.outputs ex) as [o|]; [|done]. by case_decide.
Qed.

Lemma example_mapper_call_returns (em : StringExampleMapper.t) (ex : Example.t)
    (r : pyobj) :
  StringExampleMapper.__call__ em ex = Returned r →
  StringExampleMapper.map em ex = Returned r.
Proof.
  unfold StringExampleMapper.__call__.
  destruct (Example.outputs ex) as [o|]; [|done]. by case_decide.
Qed.

(** X7: [_prepare_input] hands back what the run mapper returns when the
    chain has no example mapper; an exception of the run mapper comes
    first, whatever the example; with an example mapper and no example it
    raises a [ValueError]; with an example, the reference is written into
    the record of the run mapper under the key [reference], over any
    value that key had. *)
Theorem prepare_input_composes (run_mapper : Run.t → result pyobj)
    (name : string) (run : Run.t) :
  (∀ example,
     StringRunEvaluatorChain._prepare_input run_mapper None name run example
     = lift (run_mapper run))
  ∧ (∀ em example e,
       run_mapper run = Raise e →
       StringRunEvaluatorChain._prepare_input run_mapper em name run example
       = Raised (Exn e))
  ∧ (∀ em x,
       run_mapper run = Ok x →
       StringRunEvaluatorChain._prepare_input run_mapper (Some em) name run None
       = Raised (Exn (ValueError
           ("Evaluator " +:+ name +:+ " requires an reference"
            +:+ " example from the dataset,"
            +:+ " but none was provided for run " +:+ Run.id run +:+ "."))))
  ∧ (∀ em ex d v,
       run_mapper run = Ok (PDict d) →
       StringExampleMapper.map em ex = Returned (PDict {[ "reference" := v ]}) →
       StringRunEvaluatorChain._prepare_input run_mapper (Some em) name run (Some ex)
       = Returned (PDict (<["reference" := v]> d))).
Proof.
  unfold StringRunEvaluatorChain._prepare_input.
  split; [|split; [|split]].
  - intros example. by destruct (run_mapper run).
  - intros em example e ->. reflexivity.
  - intros em x ->. reflexivity.
  - intros em ex d v -> Hm. simpl.
    rewrite (example_mapper_call_returned _ _ _ Hm). simpl.
    unfold dict_update. by rewrite insert_union_singleton_l.
Qed.

(** X8: with the mapper of a chain and an example mapper with a reference
    key, what [_prepare_input] returns is the record of the input and the
    prediction read from the run and of the reference read from the
    example, and nothing else. *)
Theorem prepare_input_chain_example (c : ChainStringRunMapper.t) (key name : string)
    (run : Run.t) (ex : Example.t) (r : pyobj) :
  StringRunEvaluatorChain._prepare_input (ChainStringRunMapper.__call__ c)
    (Some (StringExampleMapper.Mk (Some key))) name run (Some ex) = Returned r →
  ∃ o eo i p v,
    Run.outputs run = Some o
    ∧ Run.run_type run = "chain"
    ∧ Run.inputs run !! ChainStringRunMapper.input_key c = Some i
    ∧ o !! ChainStringRunMapper.prediction_key c = Some p
    ∧ Example.outputs ex = Some eo
    ∧ eo !! key = Some v
    ∧ r = PDict {[ "input" := i; "prediction" := p; "reference" := v ]}.
Proof.
  unfold StringRunEvaluatorChain._prepare_input, ChainStringRunMapper.__call__,
    ChainStringRunMapper.map.
  destruct (not_outputs (Run.outputs run)) eqn:Hno; [done|].
  destruct (String.eqb (Run.run_type run) "chain") eqn:Ht; simpl; [|done].
  apply String.eqb_eq in Ht.
  destruct (Run.inputs run !! _) as [i|] eqn:Hi; [|done].
  destruct (Run.outputs run) as [o|] eqn:Ho; [|done]. simpl.
  destruct (o !! _) as [p|] eqn:Hp; [|done]. simpl.
  destruct (StringExampleMapper.__call__ _ ex) as [ref|] eqn:Hcall; simpl; [|done].
  apply example_mapper_call_returns in Hcall.
  unfold StringExampleMapper.map in Hcall. simpl in Hcall.
  destruct (Example.outputs ex) as [eo|] eqn:Heo; [|done].
  case_decide; [done|].
  destruct (eo !! key) as [v|] eqn:Hv; [|done].
  injection Hcall as <-. simpl. intros [= <-].
  exists o, eo, i, p, v. repeat split; try done.
Qed.

Lemma prepare_input_chain_example_witness :
  ∃ o eo i p v,
    Run.outputs chain_run = Some o
    ∧ Run.run_type chain_run = "chain"
    ∧ Run.inputs chain_run !! "question" = Some i
    ∧ o !! "text" = Some p
    ∧ Example.outputs dataset_example = Some eo
    ∧ eo !! "answer" = Some v
    ∧ PDict {[ "input" := PStr "2+2?"; "prediction" := PStr "4";
               "reference" := PStr "4" ]}
      = PDict {[ "input" := i; "prediction" := p; "reference" := v ]}.
Proof.
  exact (prepare_input_chain_example (ChainStringRunMapper.Mk "question" "text")
           "answer" "correctness" chain_run dataset_example _ eq_refl).
Defined.

Section FromModelFacts.
Context (py_str : list string → string).
Import StringRunEvaluatorChain.

(** X9: a chain returned by [from_model_and_evaluator] carries the name of
    the evaluator and the evaluator itself; it has an example mapper
    exactly when a reference key was given, reading that key; so a chain
    for an evaluator that requires a reference always has one.  Its run
    mapper is the one of the class of the model, and for a chain the one
    [from_chain] returns. *)
Theorem from_model_and_evaluator_returns (cls_name : string) (model : Model)
    (evaluator : StringEvaluator)
    (input_key prediction_key reference_key : option string) (chain : t) :
  from_model_and_evaluator py_str cls_name model evaluator
    input_key prediction_key reference_key = Returned chain →
  name chain = evaluation_name evaluator
  ∧ string_evaluator chain = evaluator
  ∧ example_mapper chain
    = (λ key, StringExampleMapper.Mk (Some key)) <$> reference_key
  ∧ (requires_reference evaluator = true → is_Some (example_mapper chain))
  ∧ match model with
    | ModelLanguageModel => run_mapper chain = MapperLLM
    | ModelChain c =>
        ∃ m, ChainStringRunMapperFromChain.from_chain py_str c input_key prediction_key
             = Returned m
             ∧ run_mapper chain = MapperChain m
    | ModelTool => run_mapper chain = MapperTool
    | ModelOther _ => False
    end.
Proof.
  unfold from_model_and_evaluator.
  destruct model as [|c| |ty]; simpl; try done.
  2: destruct (ChainStringRunMapperFromChain.from_chain py_str c _ _) as [m|] eqn:Hm;
       simpl; [|done].
  all: destruct reference_key as [key|]; simpl;
         [|destruct (requires_reference evaluator) eqn:Hreq; simpl; [done|]];
         intros [= <-]; simpl; repeat split; try done; try (by eexists).
Qed.

(** X10: [from_model_and_evaluator] raises [NotImplementedError] for a
    model that is neither a language model, a chain nor a tool, whatever
    the other arguments; for a chain, an exception of [from_chain] comes
    before any complaint about the reference; and for a model it accepts,
    an evaluator that requires a reference and no reference key give a
    [ValueError]. *)
Theorem from_model_and_evaluator_raises (cls_name : string)
    (evaluator : StringEvaluator)
    (input_key prediction_key reference_key : option string) :
  (∀ type_str,
     from_model_and_evaluator py_str cls_name (ModelOther type_str) evaluator
       input_key prediction_key reference_key
     = Raised (NotImplementedError
         (cls_name +:+ ".from_model_and_evaluator(" +:+ type_str +:+ ")"
          +:+ " not yet implemented."
          +:+ "Expected one of [BaseLanguageModel, Chain, Tool].")))
  ∧ (∀ c e,
       ChainStringRunMapperFromChain.from_chain py_str c input_key prediction_key
       = Raised e →
       from_model_and_evaluator py_str cls_name (ModelChain c) evaluator
         input_key prediction_key reference_key
       = Raised e)
  ∧ (∀ model,
       requires_reference evaluator = true →
       (∀ type_str, model ≠ ModelOther type_str) →
       (∀ c, model = ModelChain c →
             ∃ m, ChainStringRunMapperFromChain.from_chain py_str c
                    input_key prediction_key = Returned m) →
       from_model_and_evaluator py_str cls_name model evaluator
         input_key prediction_key None
       = Raised (Exn (ValueError
           ("Evaluator " +:+ evaluation_name evaluator +:+ " requires a reference"
            +:+ " example from the dataset. Please specify the reference key from"
            +:+ " amongst the dataset outputs keys.")))).
Proof.
  unfold from_model_and_evaluator.
  split; [|split].
  - done.
  - intros c e ->. done.
  - intros model Hreq Hother Hchain.
    destruct model as [|c| |ty]; simpl.
    + by rewrite Hreq.
    + destruct (Hchain c eq_refl) as [m ->]. simpl. by rewrite Hreq.
    + by rewrite Hreq.
    + by destruct (Hother ty).
Qed.

End FromModelFacts.

(** The evaluator [correctness] requires a reference: the chain built for
    a language model with the reference key [answer] has the example
    mapper that reads [answer]. *)
Lemma from_model_and_evaluator_returns_example :
  StringRunEvaluatorChain.example_mapper
    (StringRunEvaluatorChain.Mk StringRunEvaluatorChain.MapperLLM
       (Some (StringExampleMapper.Mk (Some "answer"))) "correctness" qa_evaluator)
  = (λ key, StringExampleMapper.Mk (Some key)) <$> Some "answer".
Proof.
  exact (proj1 (proj2 (proj2
    (from_model_and_evaluator_returns str_of_list "StringRunEvaluatorChain"
       StringRunEvaluatorChain.ModelLanguageModel qa_evaluator None None
       (Some "answer") _ eq_refl)))).
Defined.

(** * More of [RunnableAssign] *)

Lemma filter_chunk_union (keys : gset string) (a b : gmap string pyobj) :
  RunnableAssign.filter_chunk keys (a ∪ b)
  = RunnableAssign.filter_chunk keys a ∪ RunnableAssign.filter_chunk keys b.
Proof.
  apply map_eq. intros k.
  rewrite lookup_union, !filter_chunk_lookup, lookup_union.
  by case_decide.
Qed.

Lemma accumulate_filtered (keys : gset string) (ds : list (gmap string pyobj))
    (acc : gmap string pyobj) :
  foldl dict_update (RunnableAssign.filter_chunk keys acc)
        (RunnableAssign.filter_chunk keys <$> ds)
  = RunnableAssign.filter_chunk keys (foldl dict_update acc ds).
Proof.
  revert acc. induction ds as [|d ds IH]; intros acc; [done|].
  rewrite fmap_cons. cbn [foldl]. unfold dict_update at 2 4.
  by rewrite <- filter_chunk_union, IH.
Qed.

Lemma accumulate_drop_empty (fs : list (gmap string pyobj))
    (acc : gmap string pyobj) :
  foldl dict_update acc (filter (λ f, f ≠ ∅) fs) = foldl dict_update acc fs.
Proof.
  revert acc. induction fs as [|f fs IH]; intros acc; [done|].
  rewrite filter_cons. case_decide as Hf.
  - cbn [foldl]. apply IH.
  - subst f. cbn [foldl]. rewrite IH. f_equal.
    unfold dict_update. by rewrite (left_id_L ∅ (∪)).
Qed.

Lemma passthrough_chunks_filtered (keys : gset string)
    (ds : list (gmap string pyobj)) :
  omap (passthrough_chunk keys) ds
  = PDict <$> filter (λ f, f ≠ ∅) (RunnableAssign.filter_chunk keys <$> ds).
Proof.
  induction ds as [|d ds IH]; [done|].
  rewrite fmap_cons, filter_cons. cbn [omap list_omap]. rewrite IH.
  unfold passthrough_chunk.
  destruct (decide (RunnableAssign.filter_chunk keys d = ∅)) as [He|He];
    case_decide; try done.
Qed.

(** X11: filtering chunk by chunk and dropping the chunks left empty
    loses nothing: for dict chunks, the passthrough chunks [transform]
    yields, written one after the other into a dict, give the record the
    input chunks give, without the mapper's keys. *)
Theorem passthrough_accumulates (self : RunnableAssign.t)
    (ds : list (gmap string pyobj)) (config : RunnableConfig) :
  let keys := RunnableParallel.steps_keys (RunnableAssign.mapper self) in
  ∃ fs,
    chunks (RunnableAssign.transform self (PDict <$> ds) config)
    = (PDict <$> fs)
      ++ chunks (RunnableAssign.yield_map_output
                   (py_next (RunnableParallel.transform (RunnableAssign.mapper self)
                               (PDict <$> ds) config) PNone))
    ∧ accumulate fs = RunnableAssign.filter_chunk keys (accumulate ds)
    ∧ (length fs ≤ length ds)%nat.
Proof.
  intros keys.
  exists (filter (λ f, f ≠ ∅) (RunnableAssign.filter_chunk keys <$> ds)).
  split; [|split].
  - rewrite transform_unfold, drain_passthrough_dicts, stream_seq_chunks.
    simpl. by rewrite passthrough_chunks_filtered.
  - unfold accumulate. rewrite accumulate_drop_empty.
    rewrite <- accumulate_filtered. f_equal.
  - etrans; [apply length_filter|]. by rewrite length_fmap.
Qed.

(** X12: for dict chunks, whatever the mapper's stream is, unless it ends
    without a chunk, [transform] is the passthrough chunks followed by
    that stream as it is: its chunks in order, and its exception if it
    raises.  An exception the mapper raises before its first chunk
    surfaces after all passthrough chunks; an exception it raises in
    [invoke] is the exception of [invoke]. *)
Theorem mapper_stream_appended (self : RunnableAssign.t)
    (ds : list (gmap string pyobj)) (config : RunnableConfig) :
  let keys := RunnableParallel.steps_keys (RunnableAssign.mapper self) in
  let map_output :=
    RunnableParallel.transform (RunnableAssign.mapper self) (PDict <$> ds) config in
  (map_output ≠ stream_stop →
   RunnableAssign.transform self (PDict <$> ds) config
   = stream_seq (stream_of_list (omap (passthrough_chunk keys) ds)) map_output)
  ∧ (∀ e, map_output = stream_raise e →
       RunnableAssign.transform self (PDict <$> ds) config
       = MkStream (omap (passthrough_chunk keys) ds) (Some e))
  ∧ (∀ d e,
       RunnableParallel.invoke (RunnableAssign.mapper self) (PDict d) config
       = Raise e →
       RunnableAssign.invoke self (PDict d) config = Raise e).
Proof.
  intros keys map_output. split; [|split].
  - intros Hne. rewrite transform_unfold, drain_passthrough_dicts.
    fold map_output. f_equal.
    destruct map_output as [[|c cs] [e|]]; try done.
  - intros e He. rewrite transform_unfold, drain_passthrough_dicts.
    fold map_output. rewrite He. unfold stream_seq. simpl.
    by rewrite app_nil_r.
  - intros d e He. unfold RunnableAssign.invoke. by rewrite He.
Qed.

Lemma step_main_draining (self : RunnableAssign.t) (chunk : gmap string pyobj)
    (rest : list pyobj) (f : AssignRun.future) (o : list pyobj) :
  AssignRun.step_main self
    (AssignRun.MkState (AssignRun.Draining (PDict chunk :: rest)) f o)
  = AssignRun.MkState (AssignRun.Draining rest) f
      (o ++ option_list (passthrough_chunk (AssignRun.mapper_keys self) chunk)).
Proof.
  unfold AssignRun.step_main, passthrough_chunk. simpl.
  case_decide; simpl; [|done]. by rewrite app_nil_r.
Qed.

Lemma run_cons (self : RunnableAssign.t) (input : list pyobj)
    (config : RunnableConfig) (th : AssignRun.thread)
    (sched : list AssignRun.thread) (s : AssignRun.state) :
  AssignRun.run self input config (th :: sched) s
  = AssignRun.run self input config sched (AssignRun.step self input config th s).
Proof. reflexivity. Qed.

Lemma omap_cons_option_list {A B} (f : A → option B) (x : A) (l : list A) :
  omap f (x :: l) = option_list (f x) ++ omap f l.
Proof. cbn [omap list_omap]. by destruct (f x). Qed.

Lemma run_drains_passthrough (self : RunnableAssign.t) (input : list pyobj)
    (config : RunnableConfig) (ds : list (gmap string pyobj)) (o : list pyobj) :
  AssignRun.run self input config (replicate (length ds) AssignRun.Main)
    (AssignRun.MkState (AssignRun.Draining (PDict <$> ds)) AssignRun.Pending o)
  = AssignRun.MkState (AssignRun.Draining []) AssignRun.Pending
      (o ++ omap (passthrough_chunk (AssignRun.mapper_keys self)) ds).
Proof.
  revert o. induction ds as [|d ds IH]; intros o.
  - simpl. by rewrite app_nil_r.
  - rewrite fmap_cons. cbn [length replicate]. rewrite run_cons.
    cbn [AssignRun.step]. rewrite step_main_draining, IH.
    by rewrite omap_cons_option_list, app_assoc.
Qed.

Lemma run_waits_for_future (self : RunnableAssign.t) (input : list pyobj)
    (config : RunnableConfig) (o : list pyobj) (n : nat) :
  AssignRun.run self input config (replicate n AssignRun.Main)
    (AssignRun.MkState AssignRun.AwaitFirst AssignRun.Pending o)
  = AssignRun.MkState AssignRun.AwaitFirst AssignRun.Pending o.
Proof. induction n as [|n IH]; [done|]. cbn [replicate]. by rewrite run_cons. Qed.

(** X13: the passthrough branch does not wait for the map branch: in a
    run in which the executor has not completed the fetch of the first
    map chunk, the generator yields all passthrough chunks of the dict
    chunks, and then waits for the future, yielding nothing more. *)
Theorem passthrough_without_map (self : RunnableAssign.t)
    (ds : list (gmap string pyobj)) (config : RunnableConfig) (n : nat) :
  AssignRun.run self (PDict <$> ds) config
    (replicate (length ds + 1 + n) AssignRun.Main)
    (AssignRun.init (PDict <$> ds))
  = AssignRun.MkState AssignRun.AwaitFirst AssignRun.Pending
      (omap (passthrough_chunk
               (RunnableParallel.steps_keys (RunnableAssign.mapper self))) ds).
Proof.
  rewrite !replicate_add, !run_app. unfold AssignRun.init.
  rewrite run_drains_passthrough. cbn [replicate]. rewrite run_cons.
  cbn [AssignRun.step AssignRun.step_main AssignRun.main AssignRun.fut
       AssignRun.out app].
  apply run_waits_for_future.
Qed.

(** * The run mapper of language models *)

Section LLMFacts.
Import LLM.
Context {messages : Type}
        (messages_from_dict : jval → outcome messages)
        (get_buffer_string : messages → outcome string)
        (py_str : list (string * jval) → string).

#[local] Abbreviation map := (LLM.map messages_from_dict get_buffer_string py_str).
#[local] Abbreviation serialize_inputs :=
  (LLM.serialize_inputs messages_from_dict get_buffer_string).

Lemma or_value_error_raised {A} (body : outcome A) (msg : string) (e : exc) :
  or_value_error body msg = Raised e → e = Exn (ValueError msg).
Proof. destruct body; simpl; [done|]. by intros [= <-]. Qed.

(** X16: whatever the run, and whatever the serialization of chat
    messages does, [LLMStringRunMapper.map] raises nothing but
    [ValueError]: the exceptions of the two parsing steps are replaced by
    it; and so does the call through [__call__]. *)
Theorem llm_map_raises_value_error (run : Run) (e : exc) :
  map run = Raised e
  ∨ LLM.__call__ messages_from_dict get_buffer_string py_str run = Raised e →
  ∃ msg, e = Exn (ValueError msg).
Proof.
  assert (map run = Raised e → ∃ msg, e = Exn (ValueError msg)) as Hmap.
  { unfold LLM.map. destruct (negb _); [intros [= <-]; by eexists|].
    destruct (outputs run) as [[|kv outs]|].
    1,3: destruct (error run) as [[|c err]|]; intros [= <-]; by eexists.
    destruct (or_value_error (LLM.serialize_inputs _ _ _) _) as [i|e1] eqn:Hi;
      simpl.
    2: { apply or_value_error_raised in Hi. intros [= <-]. by eexists. }
    destruct (or_value_error (LLM.serialize_outputs _ _ _) _) as [o|e2] eqn:Ho;
      simpl; [done|].
    apply or_value_error_raised in Ho. intros [= <-]. by eexists. }
  intros [Hm|Hc]; [by apply Hmap|].
  unfold LLM.__call__ in Hc. destruct (no_outputs _); [|by apply Hmap].
  injection Hc as <-. by eexists.
Qed.

Lemma all_str_strs (l : list string) : all_str (JStr <$> l) = Returned l.
Proof. induction l as [|s l IH]; [done|]. rewrite fmap_cons. simpl. by rewrite IH. Qed.

Lemma map_outcome_texts (gens : list jval) (texts : list string) :
  Forall2 (λ g t, ∃ d, g = JDict d ∧ dict_get d "text" = Some (JStr t)) gens texts →
  map_outcome (λ generation, py_getitem generation "text") gens
  = Returned (JStr <$> texts).
Proof.
  induction 1 as [|g t gens texts (d & -> & Hd) _ IH]; [done|].
  simpl. rewrite Hd. simpl. by rewrite IH.
Qed.

Lemma flat_map_outcome_texts (batches : list (list jval))
    (texts : list (list string)) :
  Forall2 (Forall2 (λ g t, ∃ d, g = JDict d ∧ dict_get d "text" = Some (JStr t)))
          batches texts →
  flat_map_outcome
    (λ gen_batch,
       gens ← py_iter gen_batch;
       map_outcome (λ generation, py_getitem generation "text") gens)
    (JList <$> batches)
  = Returned (JStr <$> concat texts).
Proof.
  induction 1 as [|b ts batches texts Hb _ IH]; [done|].
  rewrite fmap_cons. simpl. rewrite (map_outcome_texts _ _ Hb). simpl.
  rewrite IH. simpl. by rewrite fmap_app.
Qed.

Lemma no_messages_among_dicts (gens : list jval) (texts : list string) :
  Forall2 (λ g t, ∃ d, g = JDict d ∧ dict_get d "text" = Some (JStr t)) gens texts →
  existsb (λ v, match v with JStr s => String.eqb s "messages" | _ => false end) gens
  = false.
Proof. induction 1 as [|g t gens texts (d & -> & Hd) _ IH]; [done|]. by simpl. Qed.

Lemma serialize_outputs_texts (outs : list (string * jval))
    (batches : list (list jval)) (texts : list (list string)) :
  dict_get outs "generations" = Some (JList (JList <$> batches)) →
  batches ≠ [] →
  Forall2 (Forall2 (λ g t, ∃ d, g = JDict d ∧ dict_get d "text" = Some (JStr t)))
          batches texts →
  LLM.serialize_outputs messages_from_dict get_buffer_string outs
  = Returned (join two_newlines (concat texts)).
Proof.
  intros Hg Hne Htexts. unfold LLM.serialize_outputs. rewrite Hg.
  inversion Htexts as [|b ts bs tss Hb Hrest]; subst; [done|].
  change (truthy (JList (JList <$> b :: bs))) with true.
  change (py_getitem0 (JList (JList <$> b :: bs)))
    with (Returned (JList b) : outcome jval).
  cbn [negb mbind outcome_bind py_contains].
  rewrite (no_messages_among_dicts _ _ Hb).
  cbn [py_iter mbind outcome_bind].
  rewrite (flat_map_outcome_texts _ _ Htexts).
  cbn [mbind outcome_bind]. by rewrite all_str_strs.
Qed.

(** X17: for a run of type [llm] whose inputs hold a list of prompts and
    whose outputs hold batches of generations, each a dict with a text,
    [map] returns the prompts joined by blank lines as the input, and the
    texts of all generations of all batches, in order, joined by blank
    lines, as the prediction; the other inputs play no part, and the
    serialization of chat messages is not consulted. *)
Theorem llm_map_prompts_generations (run : Run) (prompts : list string)
    (outs : list (string * jval)) (batches : list (list jval))
    (texts : list (list string)) :
  run_type run = "llm" →
  dict_get (inputs run) "prompts" = Some (JList (JStr <$> prompts)) →
  outputs run = Some outs →
  dict_get outs "generations" = Some (JList (JList <$> batches)) →
  batches ≠ [] →
  Forall2 (Forall2 (λ g t, ∃ d, g = JDict d ∧ dict_get d "text" = Some (JStr t)))
          batches texts →
  map run
  = Returned [("input", JStr (join two_newlines prompts));
              ("prediction", JStr (join two_newlines (concat texts)))].
Proof.
  intros Ht Hp Ho Hg Hne Htexts. unfold LLM.map.
  rewrite Ht, Ho. change (negb (String.eqb "llm" "llm")) with false. cbv iota.
  rewrite (serialize_outputs_texts _ _ _ Hg Hne Htexts).
  destruct outs as [|kv outs]; [done|].
  unfold LLM.serialize_inputs. rewrite Hp.
  unfold str_join. cbn [py_iter mbind outcome_bind]. rewrite all_str_strs.
  reflexivity.
Qed.

(** X18: [serialize_inputs] hands back the value under [prompt] as it is,
    whatever it is, when there are no prompts; the prompts take precedence
    over the prompt and the messages; and a value under [prompts] that is a
    plain string is joined character by character. *)
Theorem serialize_inputs_edges :
  (∀ inputs v,
     dict_get inputs "prompts" = None →
     dict_get inputs "prompt" = Some v →
     serialize_inputs inputs = Returned v)
  ∧ (∀ inputs inputs' p,
       dict_get inputs "prompts" = Some p →
       dict_get inputs' "prompts" = Some p →
       serialize_inputs inputs = serialize_inputs inputs')
  ∧ (∀ inputs s,
       dict_get inputs "prompts" = Some (JStr s) →
       serialize_inputs inputs = Returned (JStr (join two_newlines (chars s))))
  ∧ (∀ inputs,
       dict_get inputs "prompts" = None →
       dict_get inputs "prompt" = None →
       dict_get inputs "messages" = None →
       serialize_inputs inputs
       = Raised (Exn (ValueError
           "LLM Run must have either messages or prompts as inputs."))).
Proof.
  unfold LLM.serialize_inputs. split; [|split; [|split]].
  - by intros inputs v -> ->.
  - by intros inputs inputs' p -> ->.
  - intros inputs s ->. unfold str_join. simpl. by rewrite all_str_strs.
  - by intros inputs -> -> ->.
Qed.

End LLMFacts.

Lemma llm_map_prompts_generations_example :
  LLM.map (messages := unit) (λ _, Returned ()) (λ _, Returned "") (λ _, "") llm_run
  = Returned [("input", LLM.JStr ("Hello" +:+ LLM.two_newlines +:+ "World"));
              ("prediction", LLM.JStr "Hi")].
Proof.
  refine (llm_map_prompts_generations (λ _, Returned ()) (λ _, Returned "") (λ _, "")
            llm_run ["Hello"; "World"] _ [[LLM.JDict [("text", LLM.JStr "Hi")]]]
            [["Hi"]] eq_refl eq_refl eq_refl eq_refl _ _).
  - discriminate.
  - repeat constructor. by eexists.
Defined.

Lemma llm_map_raises_value_error_example :
  ∃ msg, Exn (ValueError "LLM RunMapper only supports LLM runs.")
         = Exn (ValueError msg).
Proof.
  exact (llm_map_raises_value_error (messages := unit)
           (λ _, Returned ()) (λ _, Returned "") (λ _, "") not_llm_run _
           (or_introl eq_refl)).
Defined.
